(** * ward/_config.py: resolution of defaults from pyproject.toml

    A shallow embedding of [src/ward/_config.py] and the properties of its
    precedence, key-normalisation and path-relocation logic. *)

From Stdlib Require Import String Ascii List Bool Arith ZArith Lia.
Import ListNotations.
Local Open Scope string_scope.
Local Open Scope list_scope.

(** ** Python strings *)

Module PyStr.

(** The line feed of the f-string in [read_config_toml]. *)
Definition nl : string := String (ascii_of_nat 10) EmptyString.

(** [for c in s]: the one-character strings of [s], in order. *)
Fixpoint chars (s : string) : list string :=
  match s with
  | EmptyString => []
  | String c s' => String c EmptyString :: chars s'
  end.

(** [new.join(chars)] with [new] also appended: the shape of
    [s.replace("", new)] after its leading [new]. *)
Fixpoint intersperse_after (new s : string) : string :=
  match s with
  | EmptyString => EmptyString
  | String c s' => String c (new ++ intersperse_after new s')
  end.

(** [s.startswith(pre)]. *)
Fixpoint startswith (s pre : string) {struct pre} : bool :=
  match pre with
  | EmptyString => true
  | String a pre' =>
      match s with
      | EmptyString => false
      | String b s' => Ascii.eqb a b && startswith s' pre'
      end
  end.

(** The scanning loop of [str.replace] for a non-empty [old]: [skip]
    counts the characters of a match that are still to be dropped. *)
Fixpoint replace_from (old new : string) (skip : nat) (s : string) : string :=
  match s with
  | EmptyString => EmptyString
  | String c s' =>
      match skip with
      | S k => replace_from old new k s'
      | O =>
          if startswith s old
          then new ++ replace_from old new (String.length old - 1) s'
          else String c (replace_from old new 0 s')
      end
  end.

(** [s.replace(old, new)]: every non-overlapping occurrence of [old],
    found scanning from the left, becomes [new]. *)
Definition replace (old new s : string) : string :=
  match old with
  | EmptyString => new ++ intersperse_after new s
  | _ => replace_from old new 0 s
  end.

(** [sep.join(parts)]. *)
Fixpoint join (sep : string) (parts : list string) : string :=
  match parts with
  | [] => EmptyString
  | [p] => p
  | p :: rest => p ++ sep ++ join sep rest
  end.

(** [s.split("/")], with the current component accumulated reversed. *)
Fixpoint split_slash_acc (acc : string) (s : string) : list string :=
  match s with
  | EmptyString => [acc]
  | String c s' =>
      if Ascii.eqb c "/"%char
      then acc :: split_slash_acc EmptyString s'
      else split_slash_acc (acc ++ String c EmptyString) s'
  end.

Definition split_slash (s : string) : list string :=
  split_slash_acc EmptyString s.

(** [s.lstrip("/")]. *)
Fixpoint lstrip_slash (s : string) : string :=
  match s with
  | String c s' => if Ascii.eqb c "/"%char then lstrip_slash s' else s
  | EmptyString => EmptyString
  end.

End PyStr.

(** ** pathlib, POSIX flavour

    The code only builds paths ([Path(s)], [p / s]), prints them ([str])
    and calls [relative_to]; these are the pure, lexical operations of
    [pathlib.PurePosixPath].  A path is its root ([""], ["/"] or ["//"])
    and its components, from which pathlib has dropped the empty ones and
    the ["."] ones. *)

Module Pathlib.

Record PurePath : Type := mkPath {
  root : string;
  parts : list string
}.

(** [_PosixFlavour.splitroot]: exactly two leading slashes are kept as
    the root ["//"], any other positive number is the root ["/"]. *)
Definition splitroot (part : string) : string * string :=
  match part with
  | String c _ =>
      if Ascii.eqb c "/"%char then
        let stripped := PyStr.lstrip_slash part in
        if Nat.eqb (String.length part - String.length stripped) 2
        then ("//", stripped)
        else ("/", stripped)
      else ("", part)
  | EmptyString => ("", part)
  end.

Definition keep_component (x : string) : bool :=
  negb (String.eqb x "") && negb (String.eqb x ".").

(** [Path(s)]. *)
Definition parse (s : string) : PurePath :=
  let (r, rel) := splitroot s in
  mkPath r (filter keep_component (PyStr.split_slash rel)).

(** [p / q] for a parsed right operand: an anchored [q] replaces [p]. *)
Definition joinpath (p q : PurePath) : PurePath :=
  if String.eqb (root q) "" then mkPath (root p) (parts p ++ parts q)
  else q.

(** [str(p)]: the empty relative path prints as ["."]. *)
Definition to_str (p : PurePath) : string :=
  match root p, parts p with
  | EmptyString, [] => "."
  | r, ps => r ++ PyStr.join "/" ps
  end.

(** [pre] is a prefix of [l]: what is left of [l] after it. *)
Fixpoint strip_prefix (pre l : list string) : option (list string) :=
  match pre, l with
  | [], _ => Some l
  | x :: pre', y :: l' =>
      if String.eqb x y then strip_prefix pre' l' else None
  | _ :: _, [] => None
  end.

(** [p.relative_to(other)]: defined when [other] has the root of [p] and
    its components start those of [p]; the answer is the rest, as a
    relative path.  Otherwise pathlib raises [ValueError], which is
    [None] here; the caller attaches the two printed paths. *)
Definition relative_to (p other : PurePath) : option PurePath :=
  if String.eqb (root p) (root other) then
    match strip_prefix (parts other) (parts p) with
    | Some rest => Some (mkPath "" rest)
    | None => None
    end
  else None.

End Pathlib.
Export Pathlib.

(** ** Values, dictionaries and exceptions *)

(** The Python values the module handles: [_ConfigValue] (int, str, bool,
    sequences), together with [None], tuples, nested tables of the TOML
    document and the [Path] stored under ["config_path"]. *)
#[warnings="-register-all"]
Inductive value : Type :=
| VNone
| VBool (b : bool)
| VInt (n : Z)
| VStr (s : string)
| VList (l : list value)
| VTuple (l : list value)
| VDict (d : list (string * value))
| VPath (p : PurePath).

(** A [dict] in insertion order, as [items()] walks it. *)
Definition dict : Type := list (string * value).

(** The exceptions that can leave the module.  [FileError] is
    [click.FileError(filename=..., hint=...)]; [ValueError] is the one
    [relative_to] raises, with the two paths its message prints;
    [TypeError] and [AttributeError] come from operations applied to a
    value of the wrong type; [OtherError] is any other exception, by the
    name of its class, that a library call lets out (a
    [UnicodeDecodeError] of [toml.load] on a file that is not UTF-8, for
    one). *)
Inductive exn : Type :=
| FileError (filename hint : string)
| ValueError (self other : string)
| TypeError
| AttributeError
| OtherError (name : string).

Inductive outcome (A : Type) : Type :=
| Return (a : A)
| Raise (e : exn).
Arguments Return {A} a.
Arguments Raise {A} e.

(** Truth value of an object ([if v], [not v]). *)
Definition truthy (v : value) : bool :=
  match v with
  | VNone => false
  | VBool b => b
  | VInt n => negb (Z.eqb n 0)
  | VStr s => negb (String.eqb s "")
  | VList l | VTuple l => negb (Nat.eqb (List.length l) 0)
  | VDict d => negb (Nat.eqb (List.length d) 0)
  | VPath _ => true
  end.

(** [iter(v)]: a string yields its characters, a dict its keys; [None]
    stands for the [TypeError] of a value that is not iterable. *)
Definition iter_value (v : value) : option (list value) :=
  match v with
  | VList l | VTuple l => Some l
  | VStr s => Some (map VStr (PyStr.chars s))
  | VDict d => Some (map (fun kv => VStr (fst kv)) d)
  | _ => None
  end.

(** What [Path(v)] and the right operand of [/] accept. *)
Definition as_path (v : value) : option PurePath :=
  match v with
  | VStr s => Some (parse s)
  | VPath p => Some p
  | _ => None
  end.

Module Dict.

Fixpoint get (d : dict) (k : string) : option value :=
  match d with
  | [] => None
  | (k', v) :: d' => if String.eqb k' k then Some v else get d' k
  end.

(** [d.get(k, dflt)]. *)
Definition get_default (d : dict) (k : string) (dflt : value) : value :=
  match get d k with
  | Some v => v
  | None => dflt
  end.

(** [d[k] = v]: an existing key keeps its position, a new one goes last. *)
Fixpoint set (d : dict) (k : string) (v : value) : dict :=
  match d with
  | [] => [(k, v)]
  | (k', v') :: d' =>
      if String.eqb k' k then (k', v) :: d' else (k', v') :: set d' k v
  end.

(** [d.update(other)]. *)
Definition update (d other : dict) : dict :=
  fold_left (fun acc kv => set acc (fst kv) (snd kv)) other d.

Definition keys (d : dict) : list string := map fst d.

(** The keys of a Python dict are pairwise distinct. *)
Definition wf (d : dict) : Prop := NoDup (keys d).

End Dict.

(** ** The module's functions *)

Definition _CONFIG_FILE : string := "pyproject.toml".

(** How a call of [toml.load] ends: with the document; with a
    [TomlDecodeError] or an [OSError], the two classes that
    [read_config_toml] catches (kept as the message); or with an
    exception of another class, which nothing catches. *)
Inductive load_result : Type :=
| Loaded (document : dict)
| LoadError (cause : string)
| LoadEscapes (e : exn).

(** What the module reads from its environment: [find_project_root] of
    [ward._utilities] (not part of this file, taken as given),
    [Path.cwd()], [Path.is_file] and [toml.load]. *)
Record World : Type := mkWorld {
  find_project_root : list PurePath -> PurePath;
  cwd : PurePath;
  is_file : PurePath -> bool;
  toml_load : string -> load_result
}.

(** [k.replace("--", "").replace("-", "_")]. *)
Definition normalize_key (k : string) : string :=
  PyStr.replace "-" "_" (PyStr.replace "--" "" k).

(** [v.get(k, {})] on an arbitrary value: only a dict has [get]. *)
Definition table_get (v : value) (k : string) : outcome value :=
  match v with
  | VDict d => Return (Dict.get_default d k (VDict []))
  | _ => Raise AttributeError
  end.

(** [v.items()]. *)
Definition table_items (v : value) : outcome dict :=
  match v with
  | VDict d => Return d
  | _ => Raise AttributeError
  end.

(** The dict comprehension [{normalize(k): v for k, v in items}]. *)
Definition normalize_items (items : dict) : dict :=
  fold_left (fun acc kv => Dict.set acc (normalize_key (fst kv)) (snd kv))
            items [].

Definition read_config_toml (w : World) (project_root : PurePath)
    (config_file : string) : outcome dict :=
  let path := joinpath project_root (parse config_file) in
  if negb (is_file w path) then Return []
  else
    match toml_load w (to_str path) with
    | LoadError e =>
        Raise (FileError config_file
                 ("Error reading " ++ config_file ++ ":" ++ PyStr.nl ++ e))
    | LoadEscapes e => Raise e
    | Loaded pyproject_toml =>
        match table_get (Dict.get_default pyproject_toml "tool" (VDict []))
                        "ward" with
        | Raise e => Raise e
        | Return ward_config =>
            match table_items ward_config with
            | Raise e => Raise e
            | Return items => Return (normalize_items items)
            end
        end
    end.

Definition as_list (conf : value) : value :=
  match conf with
  | VList _ => conf
  | _ => VList [conf]
  end.

Definition multiple_options : list string := ["exclude"; "hook_module"].

Definition apply_multi_defaults (file_config cli_config : dict) : dict :=
  let cli_paths := Dict.get_default cli_config "path" VNone in
  let conf_file_paths := Dict.get_default file_config "path" (VStr ".") in
  let file_config_only :=
    if truthy conf_file_paths && negb (truthy cli_paths)
    then Dict.set [] "path" (as_list conf_file_paths)
    else [] in
  fold_left
    (fun file_config_only param =>
       let from_cli := Dict.get_default cli_config param VNone in
       let from_conf_file := Dict.get_default file_config param (VStr "") in
       if truthy from_conf_file && negb (truthy from_cli)
       then Dict.set file_config_only param (as_list from_conf_file)
       else file_config_only)
    multiple_options file_config_only.

Definition path_config_keys : list string := ["path"; "exclude"].

Definition is_path_config_key (k : string) : bool :=
  existsb (String.eqb k) path_config_keys.

(** The inner loop of [set_defaults_from_config]:
    [str((project_root / path_str).relative_to(Path.cwd()))] for each
    element, stopping at the first one that raises. *)
Fixpoint relative_path_strs (project_root here : PurePath)
    (paths : list value) : outcome (list string) :=
  match paths with
  | [] => Return []
  | path_str :: rest =>
      match as_path path_str with
      | None => Raise TypeError
      | Some q =>
          let target := joinpath project_root q in
          match relative_to target here with
          | None => Raise (ValueError (to_str target) (to_str here))
          | Some rel =>
              match relative_path_strs project_root here rest with
              | Return strs => Return (to_str rel :: strs)
              | Raise e => Raise e
              end
          end
      end
  end.

(** The outer loop, over the items of [file_config].  The body assigns
    only to the key it is visiting, so the dict keeps its size and its
    order, and every item is seen with the value it had when the loop
    started: [items] is that view, [file_config] the dict being updated. *)
Fixpoint relocate_items (project_root here : PurePath) (items : dict)
    (file_config : dict) : outcome dict :=
  match items with
  | [] => Return file_config
  | (conf_key, paths) :: rest =>
      if is_path_config_key conf_key then
        match iter_value paths with
        | None => Raise TypeError
        | Some elems =>
            match relative_path_strs project_root here elems with
            | Raise e => Raise e
            | Return strs =>
                relocate_items project_root here rest
                  (Dict.set file_config conf_key (VTuple (map VStr strs)))
            end
        end
      else relocate_items project_root here rest file_config
  end.

(** [_make_all_relative_to]: [str_path / relative_to_path] for each
    element.  With a [str] on the left the operator is
    [Path.__rtruediv__], which builds the path of [str_path] followed by
    [relative_to_path]; an element that is neither a [str] nor a path
    has no such operator. *)
Fixpoint _make_all_relative_to (str_paths : list value)
    (relative_to_path : PurePath) : outcome (list PurePath) :=
  match str_paths with
  | [] => Return []
  | str_path :: rest =>
      match as_path str_path with
      | None => Raise TypeError
      | Some p =>
          match _make_all_relative_to rest relative_to_path with
          | Return ps => Return (joinpath p relative_to_path :: ps)
          | Raise e => Raise e
          end
      end
  end.

(** ** The click context, threaded through [set_defaults_from_config]

    The function mutates [context.params] and [context.default_map]; a
    computation returns or raises, and in both cases leaves a context
    behind. *)

Record Context : Type := mkContext {
  params : dict;
  default_map : option dict
}.

Definition M (A : Type) : Type := Context -> outcome A * Context.

Definition ret {A} (a : A) : M A := fun c => (Return a, c).

Definition bind {A B} (m : M A) (f : A -> M B) : M B :=
  fun c =>
    match m c with
    | (Return a, c') => f a c'
    | (Raise e, c') => (Raise e, c')
    end.

Definition lift {A} (o : outcome A) : M A := fun c => (o, c).

Declare Scope ctx_scope.
Delimit Scope ctx_scope with ctx.
Notation "x <- m ;; k" := (bind m (fun x => k))
  (at level 61, m at next level, right associativity) : ctx_scope.
Notation "m ;;; k" := (bind m (fun _ => k))
  (at level 61, right associativity) : ctx_scope.

(** [context.params.get(k)]. *)
Definition params_get (k : string) : M value :=
  fun c => (Return (Dict.get_default (params c) k VNone), c).

(** [context.params[k] = v]. *)
Definition params_set (k : string) (v : value) : M unit :=
  fun c => (Return tt, mkContext (Dict.set (params c) k v) (default_map c)).

Definition read_params : M dict := fun c => (Return (params c), c).

(** [if context.default_map is None: context.default_map = {}]. *)
Definition ensure_default_map : M unit :=
  fun c =>
    match default_map c with
    | None => (Return tt, mkContext (params c) (Some []))
    | Some _ => (Return tt, c)
    end.

(** [context.default_map.update(d)]; [None] has no [update]. *)
Definition default_map_update (d : dict) : M unit :=
  fun c =>
    match default_map c with
    | None => (Raise AttributeError, c)
    | Some m => (Return tt, mkContext (params c) (Some (Dict.update m d)))
    end.

(** [[Path(path) for path in search_paths]]. *)
Fixpoint to_paths (vs : list value) : outcome (list PurePath) :=
  match vs with
  | [] => Return []
  | v :: rest =>
      match as_path v with
      | None => Raise TypeError
      | Some p =>
          match to_paths rest with
          | Return ps => Return (p :: ps)
          | Raise e => Raise e
          end
      end
  end.

Definition search_roots (search_paths : value) : outcome (list PurePath) :=
  match iter_value search_paths with
  | None => Raise TypeError
  | Some vs => to_paths vs
  end.

(** The body of [set_defaults_from_config(context, param, value)]; the
    arguments [param] and [value] are not read.  The result is
    [config_path]: a [VPath] or [VNone]. *)
Definition set_defaults_from_config (w : World) : M value :=
  (paths_supplied_via_cli <- params_get "path" ;;
   let search_paths :=
     if truthy paths_supplied_via_cli then paths_supplied_via_cli
     else VTuple [VStr "."] in
   roots <- lift (search_roots search_paths) ;;
   let project_root := find_project_root w roots in
   file_config <- lift (read_config_toml w project_root _CONFIG_FILE) ;;
   let config_path :=
     if truthy (VDict file_config)
     then VPath (joinpath project_root (parse "pyproject.toml"))
     else VNone in
   params_set "config_path" config_path ;;;
   ensure_default_map ;;;
   cli_config <- read_params ;;
   let multi_defaults := apply_multi_defaults file_config cli_config in
   let file_config := Dict.update file_config multi_defaults in
   file_config <- lift (relocate_items project_root (cwd w)
                                       file_config file_config) ;;
   default_map_update file_config ;;;
   ret config_path)%ctx.

(** ** Specification functions *)

(** What the file contributes for [k] in [apply_multi_defaults]: its
    value as a list when that value (or [dflt], if the file has none) is
    truthy and the command line has nothing truthy for [k]. *)
Definition file_only (file_config cli_config : dict) (k : string)
    (dflt : value) : option value :=
  let from_conf_file := Dict.get_default file_config k dflt in
  if truthy from_conf_file
     && negb (truthy (Dict.get_default cli_config k VNone))
  then Some (as_list from_conf_file)
  else None.

(** The key normalisation as the specification words it: the literal
    ["--"] prefix is stripped, then every remaining ["-"] becomes ["_"]. *)
Definition strip_dash_prefix (k : string) : string :=
  match k with
  | String c1 (String c2 rest) =>
      if Ascii.eqb c1 "-"%char && Ascii.eqb c2 "-"%char then rest else k
  | _ => k
  end.

Definition spec_normalize_key (k : string) : string :=
  PyStr.replace "-" "_" (strip_dash_prefix k).

(** [s] holds two consecutive dashes somewhere. *)
Fixpoint has_double_dash (s : string) : bool :=
  match s with
  | EmptyString => false
  | String _ s' => PyStr.startswith s "--" || has_double_dash s'
  end.

(** ["-" in s]. *)
Fixpoint has_dash (s : string) : bool :=
  match s with
  | EmptyString => false
  | String c s' => Ascii.eqb c "-"%char || has_dash s'
  end.

(** The first two steps of [set_defaults_from_config]: the search paths
    (those of the command line, or [(".",)]) and the project root found
    from them. *)
Definition project_root_of (w : World) (c : Context) : outcome PurePath :=
  let paths_supplied_via_cli := Dict.get_default (params c) "path" VNone in
  match search_roots (if truthy paths_supplied_via_cli
                      then paths_supplied_via_cli
                      else VTuple [VStr "."]) with
  | Return roots => Return (find_project_root w roots)
  | Raise e => Raise e
  end.

(** The value recorded under ["config_path"] and returned. *)
Definition config_path_of (project_root : PurePath) (file_config : dict)
    : value :=
  if truthy (VDict file_config)
  then VPath (joinpath project_root (parse "pyproject.toml"))
  else VNone.

(** The default map once [None] has been replaced by [{}]. *)
Definition default_map_or_empty (c : Context) : dict :=
  match default_map c with
  | Some m => m
  | None => []
  end.

(** The context after ["config_path"] has been recorded and the default
    map has been made to exist. *)
Definition recorded (c : Context) (config_path : value) : Context :=
  mkContext (Dict.set (params c) "config_path" config_path)
            (Some (default_map_or_empty c)).

(** [file_config] after [file_config.update(multi_defaults)]. *)
Definition defaulted (file_config cli_config : dict) : dict :=
  Dict.update file_config (apply_multi_defaults file_config cli_config).

(** One element of a path option rewritten: [project_root / v] expressed
    relative to [here] and printed, when both steps are defined. *)
Definition relocated (project_root here : PurePath) (v : value)
    : option string :=
  match as_path v with
  | Some q => option_map to_str (relative_to (joinpath project_root q) here)
  | None => None
  end.

(** The elements the relocation loop visits, in the order it visits
    them: for each path option of [file_config], in dict order, the
    elements of its value.  [None] when some path option holds a value
    that cannot be iterated. *)
Fixpoint path_entries (file_config : dict) : option (list value) :=
  match file_config with
  | [] => Some []
  | (conf_key, paths) :: rest =>
      if is_path_config_key conf_key then
        match iter_value paths, path_entries rest with
        | Some elems, Some more => Some (elems ++ more)
        | _, _ => None
        end
      else path_entries rest
  end.

(** ** Concrete environments *)

(** A file system in which [find_project_root] answers [project_root],
    the working directory is [here], and [pyproject.toml] is absent
    ([None]) or makes [toml.load] end as [Some result] says. *)
Definition world_of (project_root here : string)
    (file : option load_result) : World :=
  mkWorld
    (fun _ => parse project_root)
    (parse here)
    (fun p =>
       match file with
       | Some _ => String.eqb (to_str p) (project_root ++ "/pyproject.toml")
       | None => false
       end)
    (fun _ =>
       match file with
       | Some r => r
       | None => LoadError "No such file or directory"
       end).

(** A document whose only content is the [tool.ward] table [section]. *)
Definition ward_document (section : dict) : dict :=
  [("tool", VDict [("ward", VDict section)])].

Definition empty_context : Context := mkContext [] None.

(** * Properties *)

Example parse_repo : parse "/repo/nested" = mkPath "/" ["repo"; "nested"].
Proof. reflexivity. Qed.

Example parse_dot : to_str (parse "./a//b/.") = "a/b".
Proof. reflexivity. Qed.

Example replace_dashes :
  PyStr.replace "-" "_" (PyStr.replace "--" "" "--hook-module") = "hook_module".
Proof. reflexivity. Qed.

(** ** Dictionary lemmas *)

Module DictFacts.
Import Dict.

Lemma get_set_same (d : dict) (k : string) (v : value) :
  get (set d k v) k = Some v.
Proof.
  induction d as [|[k' v'] d IH]; simpl.
  - now rewrite String.eqb_refl.
  - destruct (String.eqb k' k) eqn:E; simpl; rewrite E; auto.
Qed.

Lemma get_set_other (d : dict) (k k' : string) (v : value) :
  k <> k' -> get (set d k v) k' = get d k'.
Proof.
  intros Hne. induction d as [|[k0 v0] d IH]; simpl.
  - destruct (String.eqb_spec k k'); [contradiction | reflexivity].
  - destruct (String.eqb_spec k0 k) as [->|Hk]; simpl.
    + destruct (String.eqb_spec k k'); [contradiction | reflexivity].
    + destruct (String.eqb k0 k'); auto.
Qed.

Lemma get_set (d : dict) (k k' : string) (v : value) :
  get (set d k v) k' = if String.eqb k k' then Some v else get d k'.
Proof.
  destruct (String.eqb_spec k k') as [->|Hne].
  - apply get_set_same.
  - now apply get_set_other.
Qed.

Lemma keys_set_in (d : dict) (k : string) (v : value) :
  In k (keys d) -> keys (set d k v) = keys d.
Proof.
  unfold keys. induction d as [|[k' v'] d IH]; simpl; [tauto|].
  intros [->|Hin].
  - now rewrite String.eqb_refl.
  - destruct (String.eqb k' k); simpl; [reflexivity|].
    now rewrite IH.
Qed.

Lemma keys_set_notin (d : dict) (k : string) (v : value) :
  ~ In k (keys d) -> keys (set d k v) = keys d ++ [k].
Proof.
  unfold keys. induction d as [|[k' v'] d IH]; simpl; [reflexivity|].
  intros Hnot. destruct (String.eqb_spec k' k) as [->|Hne].
  - exfalso. apply Hnot. now left.
  - simpl. rewrite IH; [reflexivity|].
    intros Hin. apply Hnot. now right.
Qed.

Lemma get_none_iff (d : dict) (k : string) :
  get d k = None <-> ~ In k (keys d).
Proof.
  induction d as [|[k' v'] d IH]; simpl; [tauto|].
  destruct (String.eqb_spec k' k) as [->|Hne].
  - split; [discriminate | intros H; exfalso; apply H; now left].
  - rewrite IH. split; [intros H [?|?]; [contradiction | auto] | tauto].
Qed.

Lemma in_keys_dec (d : dict) (k : string) :
  {In k (keys d)} + {~ In k (keys d)}.
Proof. apply in_dec, string_dec. Qed.

Lemma set_wf (d : dict) (k : string) (v : value) :
  wf d -> wf (set d k v).
Proof.
  unfold wf. intros Hwf. destruct (in_keys_dec d k) as [Hin|Hnot].
  - now rewrite keys_set_in.
  - rewrite keys_set_notin by assumption.
    apply NoDup_app; [assumption | repeat constructor; simpl; tauto |].
    intros x Hx [<-|[]]. contradiction.
Qed.

Lemma update_wf (d other : dict) : wf d -> wf (update d other).
Proof.
  unfold update. revert d.
  induction other as [|[k v] other IH]; simpl; intros d Hwf; [assumption|].
  apply IH. now apply set_wf.
Qed.

(** [update] writes the entries of [other] from left to right, so for
    a key that [other] holds several times the last entry decides. *)
Lemma get_update (d other : dict) (k : string) :
  get (update d other) k =
  match get (rev other) k with
  | Some v => Some v
  | None => get d k
  end.
Proof.
  unfold update. revert d.
  induction other as [|[k0 v0] other IH]; simpl; intros d; [reflexivity|].
  rewrite IH. clear IH.
  assert (Hrev : get (rev other ++ [(k0, v0)]) k =
                 match get (rev other) k with
                 | Some v => Some v
                 | None => if String.eqb k0 k then Some v0 else None
                 end).
  { induction (rev other) as [|[k1 v1] l IHl]; simpl; [reflexivity|].
    destruct (String.eqb k1 k); auto. }
  rewrite Hrev. destruct (get (rev other) k); [reflexivity|].
  rewrite get_set. now destruct (String.eqb k0 k).
Qed.

Lemma get_app_notin (d1 d2 : dict) (k : string) :
  ~ In k (keys d1) -> get (d1 ++ d2) k = get d2 k.
Proof.
  induction d1 as [|[k' v'] d1 IH]; simpl; [reflexivity|].
  intros Hnot. destruct (String.eqb_spec k' k) as [->|Hne].
  - exfalso. apply Hnot. now left.
  - apply IH. tauto.
Qed.

Lemma get_in (d : dict) (k : string) (v : value) :
  get d k = Some v -> In (k, v) d.
Proof.
  induction d as [|[k' v'] d IH]; simpl; [discriminate|].
  destruct (String.eqb_spec k' k) as [->|Hne].
  - intros [= ->]. now left.
  - intros H. right. auto.
Qed.

Lemma in_get (d : dict) (k : string) (v : value) :
  wf d -> In (k, v) d -> get d k = Some v.
Proof.
  unfold wf. induction d as [|[k' v'] d IH]; simpl; [tauto|].
  intros Hwf [[= -> ->]|Hin].
  - now rewrite String.eqb_refl.
  - inversion Hwf as [|? ? Hnot Hwf']; subst.
    destruct (String.eqb_spec k' k) as [->|Hne].
    + exfalso. apply Hnot. change (In (fst (k, v)) (map fst d)).
      now apply in_map.
    + auto.
Qed.

(** On a well-formed dict the scan direction does not matter. *)
Lemma get_rev (d : dict) (k : string) : wf d -> get (rev d) k = get d k.
Proof.
  intros Hwf. destruct (get d k) as [v|] eqn:E.
  - apply in_get.
    + unfold wf, keys. rewrite map_rev. now apply NoDup_rev.
    + apply in_rev. rewrite rev_involutive. now apply get_in.
  - apply get_none_iff. apply get_none_iff in E.
    unfold keys. rewrite map_rev. now rewrite <- in_rev.
Qed.

End DictFacts.

(** ** [as_list] *)

Lemma as_list_idempotent (v : value) : as_list (as_list v) = as_list v.
Proof. destruct v; reflexivity. Qed.

Lemma as_list_truthy (v : value) : truthy v = true -> truthy (as_list v) = true.
Proof. destruct v; simpl; auto. Qed.

(** C8 (amended). [as_list] returns a list unchanged and wraps every
    value that is not a list in a one-element list: an int, a str or a
    bool, and a tuple as well, since the test is [isinstance(conf, list)].
    Applying it twice is applying it once; [as_list(["a","b"])] is
    [["a","b"]] and [as_list("a")] is [["a"]]. *)
Theorem as_list_list_or_singleton :
  (forall l, as_list (VList l) = VList l) /\
  (forall v, (forall l, v <> VList l) -> as_list v = VList [v]) /\
  (forall n, as_list (VInt n) = VList [VInt n]) /\
  (forall s, as_list (VStr s) = VList [VStr s]) /\
  (forall b, as_list (VBool b) = VList [VBool b]) /\
  (forall l, as_list (VTuple l) = VList [VTuple l]) /\
  (forall v, as_list (as_list v) = as_list v) /\
  as_list (VList [VStr "a"; VStr "b"]) = VList [VStr "a"; VStr "b"] /\
  as_list (VStr "a") = VList [VStr "a"].
Proof.
  repeat split; auto using as_list_idempotent.
  intros v Hv. destruct v; try reflexivity. now destruct (Hv l).
Qed.

Lemma as_list_singleton_example :
  as_list (VDict [("path", VStr "tests")])
  = VList [VDict [("path", VStr "tests")]].
Proof.
  apply (proj1 (proj2 as_list_list_or_singleton)).
  discriminate.
Defined.

(** A tuple is a sequence, and [as_list] does not return it unchanged. *)
Lemma as_list_wraps_tuple :
  as_list (VTuple [VStr "a"; VStr "b"]) = VList [VTuple [VStr "a"; VStr "b"]] /\
  as_list (VTuple [VStr "a"; VStr "b"]) <> VTuple [VStr "a"; VStr "b"].
Proof. split; [reflexivity | discriminate]. Qed.

(** ** [apply_multi_defaults] *)

Section Precedence.

Variables file_config cli_config : dict.

Lemma apply_multi_defaults_get (k : string) :
  Dict.get (apply_multi_defaults file_config cli_config) k =
  if String.eqb k "path"
  then file_only file_config cli_config "path" (VStr ".")
  else if String.eqb k "exclude"
  then file_only file_config cli_config "exclude" (VStr "")
  else if String.eqb k "hook_module"
  then file_only file_config cli_config "hook_module" (VStr "")
  else None.
Proof.
  unfold apply_multi_defaults, file_only, multiple_options. simpl fold_left.
  destruct (truthy (Dict.get_default file_config "path" (VStr "."))
            && negb (truthy (Dict.get_default cli_config "path" VNone)));
  destruct (truthy (Dict.get_default file_config "exclude" (VStr ""))
            && negb (truthy (Dict.get_default cli_config "exclude" VNone)));
  destruct (truthy (Dict.get_default file_config "hook_module" (VStr ""))
            && negb (truthy (Dict.get_default cli_config "hook_module" VNone)));
  rewrite ?DictFacts.get_set; cbn [Dict.get];
  rewrite ?(String.eqb_sym k);
  destruct (String.eqb_spec "path" k);
  destruct (String.eqb_spec "exclude" k);
  destruct (String.eqb_spec "hook_module" k);
  try reflexivity; congruence.
Qed.

Lemma apply_multi_defaults_wf : Dict.wf (apply_multi_defaults file_config cli_config).
Proof.
  unfold apply_multi_defaults, multiple_options. simpl fold_left.
  repeat match goal with
         | |- context [if ?b then _ else _] => destruct b
         end;
  repeat apply DictFacts.set_wf; unfold Dict.wf; simpl;
  first [apply NoDup_nil | apply NoDup_cons; [simpl; tauto | apply NoDup_nil]].
Qed.

End Precedence.

(** C3. For each of the multi-valued keys [path], [exclude] and
    [hook_module]: when the file holds a truthy value for the key, the
    result of [apply_multi_defaults] has the file's value (as a list) if
    the command line holds nothing truthy for the key, and has no entry
    for the key if the command line holds a truthy value; the two are
    never combined. *)
Theorem multi_valued_precedence_all_or_nothing
    (file_config cli_config : dict) (k : string) (v : value) :
  In k ["path"; "exclude"; "hook_module"] ->
  Dict.get file_config k = Some v ->
  truthy v = true ->
  (truthy (Dict.get_default cli_config k VNone) = false ->
   Dict.get (apply_multi_defaults file_config cli_config) k = Some (as_list v))
  /\
  (truthy (Dict.get_default cli_config k VNone) = true ->
   Dict.get (apply_multi_defaults file_config cli_config) k = None).
Proof.
  intros Hk Hfile Hv.
  rewrite apply_multi_defaults_get. unfold file_only, Dict.get_default.
  simpl in Hk.
  destruct Hk as [<-|[<-|[<-|[]]]]; simpl String.eqb; rewrite Hfile, Hv;
    split; intros ->; reflexivity.
Qed.

(** The scenario of the specification: the file sets
    [exclude = ["build/"]]; an empty or absent [exclude] on the command
    line leaves the file's list, [exclude = ["dist/"]] removes the entry. *)
Lemma multi_valued_precedence_exclude :
  (Dict.get (apply_multi_defaults [("exclude", VList [VStr "build/"])]
                                  [("exclude", VTuple [])]) "exclude"
   = Some (VList [VStr "build/"])) /\
  (Dict.get (apply_multi_defaults [("exclude", VList [VStr "build/"])] [])
            "exclude"
   = Some (VList [VStr "build/"])) /\
  (Dict.get (apply_multi_defaults [("exclude", VList [VStr "build/"])]
                                  [("exclude", VTuple [VStr "dist/"])])
            "exclude"
   = None).
Proof.
  split; [|split].
  - apply (multi_valued_precedence_all_or_nothing
             [("exclude", VList [VStr "build/"])] [("exclude", VTuple [])]
             "exclude" (VList [VStr "build/"]));
      [simpl; tauto | reflexivity | reflexivity | reflexivity].
  - apply (multi_valued_precedence_all_or_nothing
             [("exclude", VList [VStr "build/"])] []
             "exclude" (VList [VStr "build/"]));
      [simpl; tauto | reflexivity | reflexivity | reflexivity].
  - apply (multi_valued_precedence_all_or_nothing
             [("exclude", VList [VStr "build/"])]
             [("exclude", VTuple [VStr "dist/"])]
             "exclude" (VList [VStr "build/"]));
      [simpl; tauto | reflexivity | reflexivity | reflexivity].
Defined.

(** ** [set_defaults_from_config], stage by stage *)

Lemma apply_multi_defaults_config_path (file_config cli_config : dict)
    (v : value) :
  apply_multi_defaults file_config (Dict.set cli_config "config_path" v) =
  apply_multi_defaults file_config cli_config.
Proof.
  unfold apply_multi_defaults, multiple_options, Dict.get_default. simpl fold_left.
  rewrite !DictFacts.get_set_other by discriminate. reflexivity.
Qed.

(** Once the project root is found and the file is read, the call
    records the configuration path, makes the default map exist, and then
    either installs the relocated configuration or raises what the
    relocation raised. *)
Lemma set_defaults_from_config_stages (w : World) (c : Context)
    (project_root : PurePath) (file_config : dict) :
  project_root_of w c = Return project_root ->
  read_config_toml w project_root _CONFIG_FILE = Return file_config ->
  set_defaults_from_config w c =
  let config_path := config_path_of project_root file_config in
  let file_config' := defaulted file_config (params c) in
  match relocate_items project_root (cwd w) file_config' file_config' with
  | Return relocated_config =>
      (Return config_path,
       mkContext (Dict.set (params c) "config_path" config_path)
                 (Some (Dict.update (default_map_or_empty c)
                                    relocated_config)))
  | Raise e => (Raise e, recorded c config_path)
  end.
Proof.
  intros Hroot Hread. unfold project_root_of in Hroot.
  unfold set_defaults_from_config, bind, lift, params_get, params_set,
    read_params, ensure_default_map, default_map_update, ret.
  destruct (search_roots _) as [roots|e] eqn:Hsearch; [|discriminate].
  injection Hroot as <-. rewrite Hread.
  unfold config_path_of, defaulted, recorded, default_map_or_empty.
  destruct (default_map c) as [m|]; cbn [params default_map];
    rewrite apply_multi_defaults_config_path;
    destruct (relocate_items _ _ _ _); reflexivity.
Qed.

(** A failure to find the search roots or to read the file ends the call
    with the context untouched. *)
Lemma set_defaults_from_config_read_error (w : World) (c : Context)
    (project_root : PurePath) (e : exn) :
  project_root_of w c = Return project_root ->
  read_config_toml w project_root _CONFIG_FILE = Raise e ->
  set_defaults_from_config w c = (Raise e, c).
Proof.
  intros Hroot Hread. unfold project_root_of in Hroot.
  unfold set_defaults_from_config, bind, lift, params_get.
  destruct (search_roots _) as [roots|e'] eqn:Hsearch; [|discriminate].
  injection Hroot as <-. now rewrite Hread.
Qed.




(** ** The relocation loops *)

Section Relocation.

Variables project_root here : PurePath.

Lemma relative_path_strs_cons (v : value) (elems : list value)
    (strs : list string) :
  relative_path_strs project_root here (v :: elems) = Return strs <->
  exists s strs',
    relocated project_root here v = Some s /\
    relative_path_strs project_root here elems = Return strs' /\
    strs = s :: strs'.
Proof.
  simpl. unfold relocated.
  destruct (as_path v) as [q|];
    [destruct (relative_to (joinpath project_root q) here) as [rel|];
     [destruct (relative_path_strs project_root here elems) as [strs0|e]|]|];
    simpl; (split; [intros [= <-]; eauto | intros (s & strs' & Hs & Hrest & ->)]);
    congruence.
Qed.

Lemma relative_path_strs_return (elems : list value) (strs : list string) :
  relative_path_strs project_root here elems = Return strs <->
  Forall2 (fun v s => relocated project_root here v = Some s) elems strs.
Proof.
  revert strs. induction elems as [|v elems IH]; intros strs.
  - simpl. split.
    + intros [= <-]. constructor.
    + intros H. inversion H. reflexivity.
  - rewrite relative_path_strs_cons. split.
    + intros (s & strs' & Hs & Hrest & ->). constructor; [assumption|].
      now apply IH.
    + intros H. inversion H as [|? s ? strs' Hs Hrest]; subst.
      exists s, strs'. repeat split; [assumption|]. now apply IH.
Qed.

(** The loop stops at the first element that cannot be expressed
    relative to [here], with the [ValueError] of that element. *)
Lemma relative_path_strs_first_failure (good rest : list value) (p : string) :
  Forall (fun v => relocated project_root here v <> None) good ->
  relative_to (joinpath project_root (parse p)) here = None ->
  relative_path_strs project_root here (good ++ VStr p :: rest) =
  Raise (ValueError (to_str (joinpath project_root (parse p))) (to_str here)).
Proof.
  intros Hgood Hp. induction Hgood as [|v good Hv _ IH]; simpl.
  - now rewrite Hp.
  - unfold relocated in Hv. destruct (as_path v) as [q|]; [|congruence].
    destruct (relative_to (joinpath project_root q) here); [|simpl in Hv; congruence].
    simpl in IH. now rewrite IH.
Qed.

Lemma relative_path_strs_all_good (elems : list value) :
  Forall (fun v => relocated project_root here v <> None) elems ->
  exists strs, relative_path_strs project_root here elems = Return strs.
Proof.
  induction 1 as [|v elems Hv _ [strs IH]]; simpl; [now exists []|].
  unfold relocated in Hv. destruct (as_path v) as [q|]; [|congruence].
  destruct (relative_to (joinpath project_root q) here); [|simpl in Hv; congruence].
  rewrite IH. eauto.
Qed.

(** Keys that the loop does not visit, or that are not path options,
    keep their value. *)
Lemma relocate_items_untouched (items d d' : dict) (k : string) :
  relocate_items project_root here items d = Return d' ->
  ~ In k (Dict.keys items) \/ is_path_config_key k = false ->
  Dict.get d' k = Dict.get d k.
Proof.
  revert d. induction items as [|[k0 v0] items IH]; simpl; intros d Hrun Hk.
  - now injection Hrun as <-.
  - assert (Hk' : ~ In k (Dict.keys items) \/ is_path_config_key k = false)
      by (destruct Hk as [Hk|Hk]; [left|right]; tauto).
    destruct (is_path_config_key k0) eqn:Hpath; [|now apply IH].
    destruct (iter_value v0) as [elems|]; [|discriminate].
    destruct (relative_path_strs project_root here elems) as [strs|e];
      [|discriminate].
    rewrite (IH _ Hrun Hk'). apply DictFacts.get_set_other.
    intros ->. destruct Hk as [Hk|Hk]; [tauto | congruence].
Qed.

(** A path option that the loop visits ends as the tuple of its
    elements, each rewritten, in the order of the elements. *)
Lemma relocate_items_path_option (items d d' : dict) (k : string) (v : value) :
  Dict.wf items ->
  relocate_items project_root here items d = Return d' ->
  Dict.get items k = Some v ->
  is_path_config_key k = true ->
  exists elems strs,
    iter_value v = Some elems /\
    Forall2 (fun e s => relocated project_root here e = Some s) elems strs /\
    Dict.get d' k = Some (VTuple (map VStr strs)).
Proof.
  unfold Dict.wf. revert d.
  induction items as [|[k0 v0] items IH]; simpl; intros d Hwf Hrun Hget Hk;
    [discriminate|].
  inversion Hwf as [|? ? Hnotin Hwf']; subst.
  destruct (String.eqb_spec k0 k) as [->|Hne].
  - injection Hget as <-. rewrite Hk in Hrun.
    destruct (iter_value v0) as [elems|]; [|discriminate].
    destruct (relative_path_strs project_root here elems) as [strs|e] eqn:Hrel;
      [|discriminate].
    exists elems, strs. repeat split; [now apply relative_path_strs_return|].
    rewrite (relocate_items_untouched _ _ _ k Hrun) by (now left).
    apply DictFacts.get_set_same.
  - destruct (is_path_config_key k0); [|now apply (IH d)].
    destruct (iter_value v0) as [elems|]; [|discriminate].
    destruct (relative_path_strs project_root here elems) as [strs|e];
      [|discriminate].
    now apply (IH _ Hwf' Hrun).
Qed.

Lemma relocate_items_wf (items d d' : dict) :
  relocate_items project_root here items d = Return d' ->
  Dict.wf d -> Dict.wf d'.
Proof.
  revert d. induction items as [|[k0 v0] items IH]; simpl; intros d Hrun Hwf.
  - now injection Hrun as <-.
  - destruct (is_path_config_key k0); [|now apply (IH d)].
    destruct (iter_value v0) as [elems|]; [|discriminate].
    destruct (relative_path_strs project_root here elems) as [strs|e];
      [|discriminate].
    apply (IH _ Hrun). now apply DictFacts.set_wf.
Qed.

(** The first element, in visiting order, that cannot be expressed
    relative to [here] decides the outcome of the whole loop. *)
Lemma relocate_items_first_failure (items d : dict) (good rest : list value)
    (p : string) :
  path_entries items = Some (good ++ VStr p :: rest) ->
  Forall (fun v => relocated project_root here v <> None) good ->
  relative_to (joinpath project_root (parse p)) here = None ->
  relocate_items project_root here items d =
  Raise (ValueError (to_str (joinpath project_root (parse p))) (to_str here)).
Proof.
  revert d good.
  induction items as [|[k0 v0] items IH]; simpl; intros d good Hent Hgood Hp.
  - injection Hent as Hent. destruct good; discriminate.
  - destruct (is_path_config_key k0); [|now apply (IH d good)].
    destruct (iter_value v0) as [elems|]; [|discriminate].
    destruct (path_entries items) as [more|]; [|discriminate].
    injection Hent as Hent.
    apply app_eq_app in Hent as [l [[-> Hl]|[-> Hl]]].
    + destruct l as [|x l].
      * simpl in Hl. rewrite app_nil_r.
        destruct (relative_path_strs_all_good good Hgood) as [strs ->].
        apply (IH _ []); [now rewrite <- Hl | constructor | assumption].
      * injection Hl as <- ->.
        now rewrite relative_path_strs_first_failure.
    + apply Forall_app in Hgood as [Helems Hl'].
      destruct (relative_path_strs_all_good elems Helems) as [strs ->].
      apply (IH _ l); [now rewrite Hl | assumption | assumption].
Qed.

End Relocation.

(** ** [read_config_toml] returns a well-formed dict *)

Lemma normalize_items_from_wf (items acc : dict) :
  Dict.wf acc ->
  Dict.wf (fold_left
             (fun acc kv => Dict.set acc (normalize_key (fst kv)) (snd kv))
             items acc).
Proof.
  revert acc. induction items as [|[k v] items IH]; simpl; intros acc Hwf;
    [assumption|].
  apply IH. now apply DictFacts.set_wf.
Qed.

Lemma read_config_toml_wf (w : World) (project_root : PurePath)
    (config_file : string) (file_config : dict) :
  read_config_toml w project_root config_file = Return file_config ->
  Dict.wf file_config.
Proof.
  unfold read_config_toml.
  destruct (negb (is_file w _)).
  - intros [= <-]. constructor.
  - destruct (toml_load w _) as [doc|cause|e]; [|discriminate|discriminate].
    destruct (table_get _ _) as [ward_config|e]; [|discriminate].
    destruct (table_items ward_config) as [items|e]; [|discriminate].
    intros [= <-]. apply normalize_items_from_wf. constructor.
Qed.

Lemma defaulted_wf (file_config cli_config : dict) :
  Dict.wf file_config -> Dict.wf (defaulted file_config cli_config).
Proof. apply DictFacts.update_wf. Qed.

Lemma is_path_config_key_in (k : string) :
  In k path_config_keys -> is_path_config_key k = true.
Proof.
  unfold is_path_config_key. intros Hin. apply existsb_exists.
  exists k. split; [assumption | apply String.eqb_refl].
Qed.

Lemma chars_length (s : string) :
  List.length (PyStr.chars s) = String.length s.
Proof. induction s; simpl; congruence. Qed.

(** ** The default map after a call that returns *)

(** After a call that returns, every path option of the file
    configuration (with the multi-valued defaults merged in) sits in the
    default map as the tuple of its rewritten elements. *)
Lemma set_defaults_from_config_path_option (w : World) (c c' : Context)
    (config_path : value) (project_root : PurePath) (file_config : dict)
    (k : string) (v : value) :
  set_defaults_from_config w c = (Return config_path, c') ->
  project_root_of w c = Return project_root ->
  read_config_toml w project_root _CONFIG_FILE = Return file_config ->
  is_path_config_key k = true ->
  Dict.get (defaulted file_config (params c)) k = Some v ->
  exists elems strs m,
    iter_value v = Some elems /\
    Forall2 (fun e s => relocated project_root (cwd w) e = Some s) elems strs /\
    default_map c' = Some m /\
    Dict.get m k = Some (VTuple (map VStr strs)).
Proof.
  intros Hrun Hroot Hread Hk Hget.
  rewrite (set_defaults_from_config_stages w c project_root file_config Hroot Hread)
    in Hrun.
  cbv zeta in Hrun.
  pose proof (defaulted_wf file_config (params c)
                (read_config_toml_wf _ _ _ _ Hread)) as Hwf.
  destruct (relocate_items _ _ _ _) as [relocated_config|e] eqn:Hloop;
    [|discriminate].
  injection Hrun as _ <-.
  destruct (relocate_items_path_option _ _ _ _ _ k v Hwf Hloop Hget Hk)
    as (elems & strs & Hiter & Hstrs & Hstored).
  exists elems, strs, (Dict.update (default_map_or_empty c) relocated_config).
  repeat split; try assumption.
  rewrite DictFacts.get_update, DictFacts.get_rev, Hstored; [reflexivity|].
  now apply (relocate_items_wf _ _ _ _ _ Hloop).
Qed.

(** C7. After a call that returns, every path option ([path], [exclude])
    present in the file configuration after defaulting is stored in the
    default map as a tuple holding its rewritten elements in the order of
    the input sequence.  For project root [/repo] (also the working
    directory), the file section [{"path": "tests", "exclude": "build"}]
    and no command-line configuration, the default map becomes
    [{"path": ("tests",), "exclude": ("build",)}]. *)
Theorem path_options_stored_as_relocated_tuples :
  (forall (w : World) (c c' : Context) (config_path : value)
          (project_root : PurePath) (file_config : dict)
          (k : string) (v : value),
      set_defaults_from_config w c = (Return config_path, c') ->
      project_root_of w c = Return project_root ->
      read_config_toml w project_root _CONFIG_FILE = Return file_config ->
      In k path_config_keys ->
      Dict.get (defaulted file_config (params c)) k = Some v ->
      exists elems strs m,
        iter_value v = Some elems /\
        Forall2 (fun e s => relocated project_root (cwd w) e = Some s)
                elems strs /\
        default_map c' = Some m /\
        Dict.get m k = Some (VTuple (map VStr strs)))
  /\
  default_map
    (snd (set_defaults_from_config
            (world_of "/repo" "/repo"
               (Some (Loaded (ward_document
                             [("path", VStr "tests");
                              ("exclude", VStr "build")]))))
            empty_context))
  = Some [("path", VTuple [VStr "tests"]); ("exclude", VTuple [VStr "build"])].
Proof.
  split; [|reflexivity].
  intros w c c' config_path project_root file_config k v Hrun Hroot Hread Hk.
  apply (set_defaults_from_config_path_option w c c' config_path);
    auto using is_path_config_key_in.
Qed.

Lemma path_options_stored_example :
  exists elems strs m,
    iter_value (VList [VStr "tests"; VStr "unit/fast"]) = Some elems /\
    Forall2 (fun e s => relocated (parse "/repo") (parse "/") e = Some s)
            elems strs /\
    default_map
      (snd (set_defaults_from_config
              (world_of "/repo" "/"
                 (Some (Loaded (ward_document
                               [("path", VList [VStr "tests";
                                                VStr "unit/fast"])]))))
              empty_context))
    = Some m /\
    Dict.get m "path" = Some (VTuple (map VStr strs)).
Proof.
  eapply (proj1 path_options_stored_as_relocated_tuples
            (world_of "/repo" "/"
               (Some (Loaded (ward_document
                             [("path", VList [VStr "tests";
                                              VStr "unit/fast"])]))))
            empty_context _ _ (parse "/repo") _ "path");
    [ vm_compute; reflexivity | reflexivity | reflexivity
    | simpl; tauto | reflexivity ].
Defined.

(** A key for which the command line holds a truthy value keeps the
    file's own value through the defaulting step. *)
Lemma defaulted_get_cli_supplied (file_config cli_config : dict) (k : string) :
  truthy (Dict.get_default cli_config k VNone) = true ->
  Dict.get (defaulted file_config cli_config) k = Dict.get file_config k.
Proof.
  intros Hcli. unfold defaulted.
  rewrite DictFacts.get_update, DictFacts.get_rev
    by apply apply_multi_defaults_wf.
  rewrite apply_multi_defaults_get. unfold file_only.
  destruct (String.eqb_spec k "path") as [->|_];
    [now rewrite Hcli, andb_false_r|].
  destruct (String.eqb_spec k "exclude") as [->|_];
    [now rewrite Hcli, andb_false_r|].
  destruct (String.eqb_spec k "hook_module") as [->|_];
    [now rewrite Hcli, andb_false_r|].
  reflexivity.
Qed.

(** C9. When the file gives a path option ([path] or [exclude]) as a
    plain string and the command line holds a truthy value for the same
    key, a call that returns has stored under that key a tuple with one
    rewritten entry for each character of the string. *)
Theorem scalar_string_relocated_per_character (w : World) (c c' : Context)
    (config_path : value) (project_root : PurePath) (file_config : dict)
    (k s : string) :
  set_defaults_from_config w c = (Return config_path, c') ->
  project_root_of w c = Return project_root ->
  read_config_toml w project_root _CONFIG_FILE = Return file_config ->
  In k path_config_keys ->
  Dict.get file_config k = Some (VStr s) ->
  truthy (Dict.get_default (params c) k VNone) = true ->
  exists strs m,
    Forall2 (fun e r => relocated project_root (cwd w) e = Some r)
            (map VStr (PyStr.chars s)) strs /\
    List.length strs = String.length s /\
    default_map c' = Some m /\
    Dict.get m k = Some (VTuple (map VStr strs)).
Proof.
  intros Hrun Hroot Hread Hk Hfile Hcli.
  destruct (set_defaults_from_config_path_option
              w c c' config_path project_root file_config k (VStr s)
              Hrun Hroot Hread (is_path_config_key_in k Hk))
    as (elems & strs & m & Hiter & Hstrs & Hmap & Hstored).
  { now rewrite defaulted_get_cli_supplied. }
  injection Hiter as <-.
  exists strs, m. repeat split; try assumption.
  rewrite <- (Forall2_length Hstrs), length_map. apply chars_length.
Qed.

Lemma scalar_string_relocated_example :
  exists strs m,
    Forall2 (fun e r => relocated (parse "/repo") (parse "/repo") e = Some r)
            (map VStr (PyStr.chars "build")) strs /\
    List.length strs = String.length "build" /\
    default_map
      (snd (set_defaults_from_config
              (world_of "/repo" "/repo"
                 (Some (Loaded (ward_document [("exclude", VStr "build")]))))
              (mkContext [("exclude", VTuple [VStr "dist"])] None)))
    = Some m /\
    Dict.get m "exclude" = Some (VTuple (map VStr strs)).
Proof.
  eapply (scalar_string_relocated_per_character
            (world_of "/repo" "/repo"
               (Some (Loaded (ward_document [("exclude", VStr "build")]))))
            (mkContext [("exclude", VTuple [VStr "dist"])] None)
            _ _ (parse "/repo") _ "exclude" "build");
    [ vm_compute; reflexivity | reflexivity | reflexivity
    | simpl; tauto | reflexivity | reflexivity ].
Defined.

(** The run of the example above: [exclude = "build"] ends as the five
    one-character paths. *)
Example scalar_string_relocated_run :
  default_map
    (snd (set_defaults_from_config
            (world_of "/repo" "/repo"
               (Some (Loaded (ward_document [("exclude", VStr "build")]))))
            (mkContext [("exclude", VTuple [VStr "dist"])] None)))
  = Some [("exclude", VTuple [VStr "b"; VStr "u"; VStr "i"; VStr "l"; VStr "d"]);
          ("path", VTuple [VStr "."])].
Proof. reflexivity. Qed.

(** ** Relocation failures *)

(** The first element, in visiting order, whose location under the
    project root cannot be expressed relative to the working directory
    makes the call raise the error of [relative_to], which names that
    location and the working directory; the configuration path is already
    recorded by then. *)
Lemma first_unrelocatable_path_raises_value_error (w : World) (c : Context)
    (project_root : PurePath) (file_config : dict)
    (good rest : list value) (p : string) :
  project_root_of w c = Return project_root ->
  read_config_toml w project_root _CONFIG_FILE = Return file_config ->
  path_entries (defaulted file_config (params c))
    = Some (good ++ VStr p :: rest) ->
  Forall (fun v => relocated project_root (cwd w) v <> None) good ->
  relative_to (joinpath project_root (parse p)) (cwd w) = None ->
  set_defaults_from_config w c =
  (Raise (ValueError (to_str (joinpath project_root (parse p)))
                     (to_str (cwd w))),
   recorded c (config_path_of project_root file_config)).
Proof.
  intros Hroot Hread Hent Hgood Hp.
  rewrite (set_defaults_from_config_stages w c project_root file_config Hroot Hread).
  cbv zeta.
  now rewrite (relocate_items_first_failure _ _ _ _ good rest p Hent Hgood Hp).
Qed.

Lemma first_unrelocatable_path_example :
  set_defaults_from_config
    (world_of "/repo" "/repo"
       (Some (Loaded (ward_document
                     [("path", VList [VStr "tests"; VStr "/srv/shared"]);
                      ("exclude", VList [VStr "/tmp"])]))))
    empty_context
  = (Raise (ValueError "/srv/shared" "/repo"),
     mkContext [("config_path", VPath (parse "/repo/pyproject.toml"))]
               (Some [])).
Proof.
  apply (first_unrelocatable_path_raises_value_error
           (world_of "/repo" "/repo"
              (Some (Loaded (ward_document
                            [("path", VList [VStr "tests"; VStr "/srv/shared"]);
                             ("exclude", VList [VStr "/tmp"])]))))
           empty_context (parse "/repo")
           [("path", VList [VStr "tests"; VStr "/srv/shared"]);
            ("exclude", VList [VStr "/tmp"])]
           [VStr "tests"] [VStr "/tmp"] "/srv/shared");
    [ reflexivity | reflexivity | reflexivity
    | repeat constructor; discriminate | reflexivity ].
Defined.

(** Among path strings of which one cannot be relocated, there is a
    first one. *)
Lemma first_unrelocatable_split (project_root here : PurePath)
    (strs : list string) (p : string) :
  In p strs ->
  relative_to (joinpath project_root (parse p)) here = None ->
  exists good q rest,
    strs = good ++ q :: rest /\
    Forall (fun s => relative_to (joinpath project_root (parse s)) here
                     <> None) good /\
    relative_to (joinpath project_root (parse q)) here = None.
Proof.
  induction strs as [|s strs IH]; simpl; [tauto|]. intros Hin Hp.
  destruct (relative_to (joinpath project_root (parse s)) here) as [rel|]
    eqn:Hs.
  - destruct Hin as [->|Hin]; [congruence|].
    destruct (IH Hin Hp) as (good & q & rest & -> & Hgood & Hq).
    exists (s :: good), q, rest. repeat split; [|assumption].
    constructor; [congruence | assumption].
  - exists [], s, strs. repeat split; [constructor | assumption].
Qed.

(** C5. When the path options of the file configuration hold path
    strings and the location [project_root / p] of one of them cannot be
    expressed relative to the working directory, the call does not return
    and raises no unrelated error: it fails with the relocation error,
    the one [relative_to] raises, and that error names the location of an
    entry that cannot be relocated (the first one in visiting order) and
    the working directory. *)
Theorem unrelocatable_path_raises_relocation_error (w : World) (c : Context)
    (project_root : PurePath) (file_config : dict)
    (strs : list string) (p : string) :
  project_root_of w c = Return project_root ->
  read_config_toml w project_root _CONFIG_FILE = Return file_config ->
  path_entries (defaulted file_config (params c)) = Some (map VStr strs) ->
  In p strs ->
  relative_to (joinpath project_root (parse p)) (cwd w) = None ->
  exists good q rest,
    strs = good ++ q :: rest /\
    Forall (fun s => relative_to (joinpath project_root (parse s)) (cwd w)
                     <> None) good /\
    relative_to (joinpath project_root (parse q)) (cwd w) = None /\
    set_defaults_from_config w c =
    (Raise (ValueError (to_str (joinpath project_root (parse q)))
                       (to_str (cwd w))),
     recorded c (config_path_of project_root file_config)).
Proof.
  intros Hroot Hread Hent Hin Hp.
  destruct (first_unrelocatable_split _ _ _ _ Hin Hp)
    as (good & q & rest & -> & Hgood & Hq).
  exists good, q, rest. repeat split; try assumption.
  apply (first_unrelocatable_path_raises_value_error
           w c project_root file_config (map VStr good) (map VStr rest) q);
    try assumption.
  - now rewrite Hent, map_app.
  - apply Forall_map. eapply Forall_impl; [|exact Hgood].
    intros s Hs. cbv beta in Hs. unfold relocated, as_path.
    destruct (relative_to (joinpath project_root (parse s)) (cwd w));
      [discriminate | now elim Hs].
Qed.

Lemma unrelocatable_path_example :
  exists good q rest,
    ["tests"; "/srv/shared"; "/tmp"] = good ++ q :: rest /\
    Forall (fun s => relative_to (joinpath (parse "/repo") (parse s))
                                 (parse "/repo") <> None) good /\
    relative_to (joinpath (parse "/repo") (parse q)) (parse "/repo") = None /\
    set_defaults_from_config
      (world_of "/repo" "/repo"
         (Some (Loaded (ward_document
                          [("path", VList [VStr "tests"; VStr "/srv/shared"]);
                           ("exclude", VList [VStr "/tmp"])]))))
      empty_context
    = (Raise (ValueError (to_str (joinpath (parse "/repo") (parse q)))
                         "/repo"),
       mkContext [("config_path", VPath (parse "/repo/pyproject.toml"))]
                 (Some [])).
Proof.
  apply (unrelocatable_path_raises_relocation_error
           (world_of "/repo" "/repo"
              (Some (Loaded (ward_document
                               [("path", VList [VStr "tests"; VStr "/srv/shared"]);
                                ("exclude", VList [VStr "/tmp"])]))))
           empty_context (parse "/repo")
           [("path", VList [VStr "tests"; VStr "/srv/shared"]);
            ("exclude", VList [VStr "/tmp"])]
           ["tests"; "/srv/shared"; "/tmp"] "/tmp");
    [ reflexivity | reflexivity | reflexivity | simpl; tauto | reflexivity ].
Defined.

(** ** No file, or no [tool.ward] section *)

Lemma joinpath_dot (p : PurePath) : joinpath p (parse ".") = p.
Proof.
  change (parse ".") with (mkPath "" []). unfold joinpath. simpl.
  rewrite app_nil_r. now destruct p.
Qed.

Lemma project_root_of_no_cli_paths (w : World) (c : Context) :
  truthy (Dict.get_default (params c) "path" VNone) = false ->
  project_root_of w c = Return (find_project_root w [parse "."]).
Proof. intros Hcli. unfold project_root_of. now rewrite Hcli. Qed.

(** With an empty file configuration and no paths on the command line,
    the defaulting step invents the search path ["."]. *)
Lemma defaulted_empty_no_cli_paths (cli_config : dict) :
  truthy (Dict.get_default cli_config "path" VNone) = false ->
  defaulted [] cli_config = [("path", VList [VStr "."])].
Proof.
  intros Hcli. unfold defaulted, apply_multi_defaults, multiple_options.
  simpl. now rewrite Hcli.
Qed.

(** With an empty file configuration and paths on the command line, the
    defaulting step adds nothing. *)
Lemma defaulted_empty_cli_paths (cli_config : dict) :
  truthy (Dict.get_default cli_config "path" VNone) = true ->
  defaulted [] cli_config = [].
Proof.
  intros Hcli. unfold defaulted, apply_multi_defaults, multiple_options.
  simpl. now rewrite Hcli.
Qed.

(** An empty file configuration and no paths on the command line: the
    call records [None], and it returns exactly when the project root can
    be expressed relative to the working directory. *)
Lemma set_defaults_from_config_empty_no_cli_paths (w : World) (c : Context) :
  truthy (Dict.get_default (params c) "path" VNone) = false ->
  read_config_toml w (find_project_root w [parse "."]) _CONFIG_FILE
    = Return [] ->
  set_defaults_from_config w c =
  match relative_to (find_project_root w [parse "."]) (cwd w) with
  | Some rel =>
      (Return VNone,
       mkContext (Dict.set (params c) "config_path" VNone)
                 (Some (Dict.set (default_map_or_empty c) "path"
                                 (VTuple [VStr (to_str rel)]))))
  | None =>
      (Raise (ValueError (to_str (find_project_root w [parse "."]))
                         (to_str (cwd w))),
       recorded c VNone)
  end.
Proof.
  intros Hcli Hread.
  rewrite (set_defaults_from_config_stages
             w c _ [] (project_root_of_no_cli_paths w c Hcli) Hread).
  cbv zeta. rewrite (defaulted_empty_no_cli_paths _ Hcli).
  unfold relocate_items, relative_path_strs, as_path, iter_value.
  change (is_path_config_key "path") with true. cbv iota.
  rewrite joinpath_dot.
  destruct (relative_to _ _) as [rel|]; reflexivity.
Qed.

(** C1 (amended). When the configuration file does not exist, the
    command line supplied no paths and the project root can be expressed
    relative to the working directory, the call returns [None], records
    [None] as the configuration path, and the default map is the previous
    one (or the empty one) with the single key ["path"] set to the
    one-element tuple holding the project root relative to the working
    directory; no other key is added or overwritten. *)
Theorem missing_file_installs_default_search_path (w : World) (c : Context)
    (rel : PurePath) :
  truthy (Dict.get_default (params c) "path" VNone) = false ->
  is_file w (joinpath (find_project_root w [parse "."]) (parse _CONFIG_FILE))
    = false ->
  relative_to (find_project_root w [parse "."]) (cwd w) = Some rel ->
  set_defaults_from_config w c =
    (Return VNone,
     mkContext (Dict.set (params c) "config_path" VNone)
               (Some (Dict.set (default_map_or_empty c) "path"
                               (VTuple [VStr (to_str rel)]))))
  /\
  forall k, k <> "path" ->
    Dict.get (Dict.set (default_map_or_empty c) "path"
                       (VTuple [VStr (to_str rel)])) k
    = Dict.get (default_map_or_empty c) k.
Proof.
  intros Hcli Hfile Hrel. split.
  - rewrite set_defaults_from_config_empty_no_cli_paths; [now rewrite Hrel | assumption |].
    unfold read_config_toml. now rewrite Hfile.
  - intros k Hk. apply DictFacts.get_set_other. congruence.
Qed.

Lemma missing_file_example :
  set_defaults_from_config
    (world_of "/repo" "/repo" None)
    (mkContext [("fail_limit", VInt 3)] (Some [("order", VStr "random")]))
  = (Return VNone,
     mkContext [("fail_limit", VInt 3); ("config_path", VNone)]
               (Some [("order", VStr "random"); ("path", VTuple [VStr "."])])).
Proof.
  apply (missing_file_installs_default_search_path
           (world_of "/repo" "/repo" None)
           (mkContext [("fail_limit", VInt 3)] (Some [("order", VStr "random")]))
           (mkPath "" []));
    reflexivity.
Defined.

(** The file is missing and the command line has no paths, yet the
    default map changes: it gains the key ["path"]. *)
Lemma missing_file_changes_default_map :
  let w := world_of "/repo" "/repo" None in
  let c := mkContext [] (Some []) in
  read_config_toml w (parse "/repo") _CONFIG_FILE = Return [] /\
  Dict.get (params c) "path" = None /\
  fst (set_defaults_from_config w c) = Return VNone /\
  default_map (snd (set_defaults_from_config w c))
    = Some [("path", VTuple [VStr "."])] /\
  default_map (snd (set_defaults_from_config w c)) <> default_map c.
Proof.
  cbv zeta. repeat split; try reflexivity.
  vm_compute. discriminate.
Qed.

(** C2. The relocation of the file entry [path = "sub"] under the
    project root [/repo]: with the working directory [/repo] it is
    ["sub"]; with the working directory [/repo/nested] the code does not
    produce ["../sub"] but raises the [ValueError] of [relative_to]. *)
Theorem relocation_from_nested_directory_raises :
  relative_path_strs (parse "/repo") (parse "/repo") [VStr "sub"]
    = Return ["sub"] /\
  relative_path_strs (parse "/repo") (parse "/repo/nested") [VStr "sub"]
    = Raise (ValueError "/repo/sub" "/repo/nested") /\
  set_defaults_from_config
    (world_of "/repo" "/repo"
       (Some (Loaded (ward_document [("path", VStr "sub")]))))
    empty_context
  = (Return (VPath (parse "/repo/pyproject.toml")),
     mkContext [("config_path", VPath (parse "/repo/pyproject.toml"))]
               (Some [("path", VTuple [VStr "sub"])])) /\
  set_defaults_from_config
    (world_of "/repo" "/repo/nested"
       (Some (Loaded (ward_document [("path", VStr "sub")]))))
    empty_context
  = (Raise (ValueError "/repo/sub" "/repo/nested"),
     mkContext [("config_path", VPath (parse "/repo/pyproject.toml"))]
               (Some [])).
Proof. repeat split. Qed.

(** A document without a [tool] table, without a [ward] table under it,
    or with an empty [ward] table, yields the empty configuration. *)
Lemma read_config_toml_no_section (w : World) (project_root : PurePath)
    (document : dict) :
  is_file w (joinpath project_root (parse _CONFIG_FILE)) = true ->
  toml_load w (to_str (joinpath project_root (parse _CONFIG_FILE)))
    = Loaded document ->
  Dict.get document "tool" = None \/
  (exists tool, Dict.get document "tool" = Some (VDict tool) /\
                (Dict.get tool "ward" = None \/
                 Dict.get tool "ward" = Some (VDict []))) ->
  read_config_toml w project_root _CONFIG_FILE = Return [].
Proof.
  intros Hfile Hload Hsection. unfold read_config_toml, Dict.get_default.
  rewrite Hfile, Hload. simpl.
  destruct Hsection as [->|(tool & -> & [Hward|Hward])]; simpl;
    unfold Dict.get_default; now rewrite ?Hward.
Qed.

(** With an empty file configuration the call always records [None]
    under ["config_path"]; it then returns [None], unless the command
    line has no paths and the project root cannot be expressed relative
    to the working directory, in which case [relative_to] raises. *)
Lemma empty_configuration_records_none (w : World) (c : Context)
    (project_root : PurePath) :
  project_root_of w c = Return project_root ->
  read_config_toml w project_root _CONFIG_FILE = Return [] ->
  Dict.get (params (snd (set_defaults_from_config w c))) "config_path"
    = Some VNone /\
  (fst (set_defaults_from_config w c) = Return VNone \/
   truthy (Dict.get_default (params c) "path" VNone) = false /\
   relative_to project_root (cwd w) = None /\
   fst (set_defaults_from_config w c)
     = Raise (ValueError (to_str project_root) (to_str (cwd w)))).
Proof.
  intros Hroot Hread.
  destruct (truthy (Dict.get_default (params c) "path" VNone)) eqn:Hcli.
  - rewrite (set_defaults_from_config_stages w c project_root [] Hroot Hread).
    cbv zeta. rewrite (defaulted_empty_cli_paths _ Hcli). simpl.
    split; [apply DictFacts.get_set_same | now left].
  - rewrite (project_root_of_no_cli_paths w c Hcli) in Hroot.
    injection Hroot as <-.
    rewrite (set_defaults_from_config_empty_no_cli_paths w c Hcli Hread).
    destruct (relative_to _ _) as [rel|]; simpl;
      (split; [apply DictFacts.get_set_same|]); [now left | now right].
Qed.

(** C10. A [pyproject.toml] that parses but has no [tool.ward] section:
    run from the project root, the call records [None] under
    ["config_path"] and returns [None]; run from a directory below the
    project root, without paths on the command line, it records [None]
    and then raises the [ValueError] of [relative_to] instead of
    returning. *)
Theorem no_ward_section_nested_directory_raises :
  set_defaults_from_config
    (world_of "/repo" "/repo"
       (Some (Loaded [("tool", VDict [("black", VDict [])])])))
    empty_context
  = (Return VNone,
     mkContext [("config_path", VNone)] (Some [("path", VTuple [VStr "."])]))
  /\
  set_defaults_from_config
    (world_of "/repo" "/repo/nested"
       (Some (Loaded [("tool", VDict [("black", VDict [])])])))
    empty_context
  = (Raise (ValueError "/repo" "/repo/nested"),
     mkContext [("config_path", VNone)] (Some [])).
Proof. split; reflexivity. Qed.

(** ** Key normalisation *)

Lemma replace_double_dash_absent (s : string) :
  has_double_dash s = false -> PyStr.replace "--" "" s = s.
Proof.
  unfold PyStr.replace. induction s as [|c s IH]; [reflexivity|].
  intros Hno. cbn [has_double_dash] in Hno.
  apply orb_false_iff in Hno as [Hprefix Hrest].
  cbn [PyStr.replace_from]. rewrite Hprefix. f_equal. now apply IH.
Qed.

Lemma replace_double_dash_prefix (s : string) :
  PyStr.replace "--" "" ("--" ++ s) = PyStr.replace "--" "" s.
Proof. reflexivity. Qed.

(** Where ["--"] occurs only as the prefix of the key, or not at all,
    the code's normalisation is the one the specification words. *)
Lemma normalize_key_prefix_only (k : string) :
  has_double_dash (strip_dash_prefix k) = false ->
  normalize_key k = spec_normalize_key k.
Proof.
  unfold normalize_key, spec_normalize_key, strip_dash_prefix.
  destruct k as [|c1 [|c2 k]].
  - reflexivity.
  - intros Hno. f_equal. now apply replace_double_dash_absent.
  - destruct (Ascii.eqb_spec c1 "-"%char) as [->|Hc1];
      [destruct (Ascii.eqb_spec c2 "-"%char) as [->|Hc2]|]; simpl andb;
      intros Hno; f_equal.
    + rewrite <- (replace_double_dash_absent k Hno) at 2.
      apply (replace_double_dash_prefix k).
    + now apply replace_double_dash_absent.
    + now apply replace_double_dash_absent.
Qed.

(** A name that no key of [items] normalises to is left as it was. *)
Lemma normalize_fold_untouched (items acc : dict) (name : string) :
  (forall k, In k (Dict.keys items) -> normalize_key k <> name) ->
  Dict.get (fold_left
              (fun acc kv => Dict.set acc (normalize_key (fst kv)) (snd kv))
              items acc) name
  = Dict.get acc name.
Proof.
  revert acc. induction items as [|[k v] items IH]; simpl; intros acc Hnone;
    [reflexivity|].
  rewrite IH by (intros k' Hk'; apply Hnone; now right).
  apply DictFacts.get_set_other. apply Hnone. now left.
Qed.

(** The value of a key whose normalised name no other key shares is
    found under that name. *)
Lemma normalize_fold_get (items acc : dict) (k : string) (v : value) :
  Dict.wf items ->
  In (k, v) items ->
  (forall k', In k' (Dict.keys items) ->
              normalize_key k' = normalize_key k -> k' = k) ->
  Dict.get (fold_left
              (fun acc kv => Dict.set acc (normalize_key (fst kv)) (snd kv))
              items acc) (normalize_key k)
  = Some v.
Proof.
  unfold Dict.wf. revert acc.
  induction items as [|[k0 v0] items IH]; simpl; intros acc Hwf Hin Hinj;
    [contradiction|].
  inversion Hwf as [|? ? Hnotin Hwf']; subst.
  destruct Hin as [[= -> ->]|Hin].
  - rewrite normalize_fold_untouched.
    + apply DictFacts.get_set_same.
    + intros k' Hk' Heq. apply Hnotin.
      rewrite <- (Hinj k' (or_intror Hk') Heq). exact Hk'.
  - apply IH; [assumption | assumption |].
    intros k' Hk'. apply Hinj. now right.
Qed.

(** The value of a key that no later key shares its normalised name
    with is found under that name, whatever came before it. *)
Lemma normalize_fold_last (before after acc : dict) (k : string) (v : value) :
  (forall k', In k' (Dict.keys after) -> normalize_key k' <> normalize_key k) ->
  Dict.get (fold_left
              (fun acc kv => Dict.set acc (normalize_key (fst kv)) (snd kv))
              (before ++ (k, v) :: after) acc) (normalize_key k)
  = Some v.
Proof.
  intros Hlast. rewrite fold_left_app. simpl.
  rewrite normalize_fold_untouched by assumption.
  apply DictFacts.get_set_same.
Qed.

(** C6 (amended). For every key [k] of the [tool.ward] section that no
    later key of the section shares its normalised name with,
    [read_config_toml] returns the value of [k] under
    [k.replace("--", "").replace("-", "_")]: every occurrence of ["--"]
    in [k] is deleted, not only a leading one, and then every remaining
    ["-"] becomes ["_"].  So when several keys normalise to the same
    name, the value of the last of them is the one returned. *)
Theorem keys_stored_under_normalized_names (w : World)
    (project_root : PurePath) (document tool section before after : dict)
    (k : string) (v : value) :
  is_file w (joinpath project_root (parse _CONFIG_FILE)) = true ->
  toml_load w (to_str (joinpath project_root (parse _CONFIG_FILE)))
    = Loaded document ->
  Dict.get document "tool" = Some (VDict tool) ->
  Dict.get tool "ward" = Some (VDict section) ->
  section = before ++ (k, v) :: after ->
  (forall k', In k' (Dict.keys after) ->
              normalize_key k' <> normalize_key k) ->
  exists file_config,
    read_config_toml w project_root _CONFIG_FILE = Return file_config /\
    Dict.get file_config
             (PyStr.replace "-" "_" (PyStr.replace "--" "" k)) = Some v.
Proof.
  intros Hfile Hload Htool Hward -> Hlast.
  exists (normalize_items (before ++ (k, v) :: after)). split.
  - unfold read_config_toml, Dict.get_default.
    rewrite Hfile, Hload. simpl. rewrite Htool. simpl.
    unfold Dict.get_default. now rewrite Hward.
  - now apply normalize_fold_last.
Qed.

Lemma keys_stored_under_normalized_names_example :
  exists file_config,
    read_config_toml
      (world_of "/repo" "/repo"
         (Some (Loaded (ward_document
                          [("hook_module", VList [VStr "first"]);
                           ("fail-limit", VInt 5);
                           ("--hook-module", VList [VStr "second"])]))))
      (parse "/repo") _CONFIG_FILE
    = Return file_config /\
    Dict.get file_config "hook_module" = Some (VList [VStr "second"]).
Proof.
  apply (keys_stored_under_normalized_names
           (world_of "/repo" "/repo"
              (Some (Loaded (ward_document
                               [("hook_module", VList [VStr "first"]);
                                ("fail-limit", VInt 5);
                                ("--hook-module", VList [VStr "second"])]))))
           (parse "/repo")
           (ward_document [("hook_module", VList [VStr "first"]);
                           ("fail-limit", VInt 5);
                           ("--hook-module", VList [VStr "second"])])
           [("ward", VDict [("hook_module", VList [VStr "first"]);
                            ("fail-limit", VInt 5);
                            ("--hook-module", VList [VStr "second"])])]
           [("hook_module", VList [VStr "first"]);
            ("fail-limit", VInt 5);
            ("--hook-module", VList [VStr "second"])]
           [("hook_module", VList [VStr "first"]); ("fail-limit", VInt 5)]
           []
           "--hook-module" (VList [VStr "second"]));
    try reflexivity.
  intros k' [].
Defined.

(** A key with ["--"] inside: the specification's wording keeps the inner
    dashes as underscores, the code deletes them, so the value is not
    under the name the specification gives. *)
Lemma inner_double_dash_is_deleted :
  let w := world_of "/repo" "/repo"
             (Some (Loaded (ward_document [("hook--module", VStr "hooks")]))) in
  spec_normalize_key "hook--module" = "hook__module" /\
  exists file_config,
    read_config_toml w (parse "/repo") _CONFIG_FILE = Return file_config /\
    Dict.get file_config (spec_normalize_key "hook--module") = None /\
    Dict.get file_config "hookmodule" = Some (VStr "hooks").
Proof.
  cbv zeta. split; [reflexivity|].
  exists [("hookmodule", VStr "hooks")]. repeat split.
Qed.

(** * Further properties *)

(** ** Normalised keys *)

Lemma replace_dash_removes_dashes (s : string) :
  has_dash (PyStr.replace "-" "_" s) = false.
Proof.
  unfold PyStr.replace. induction s as [|c s IH]; [reflexivity|].
  cbn [PyStr.replace_from PyStr.startswith].
  rewrite andb_true_r. destruct (Ascii.eqb_spec "-"%char c) as [<-|Hc].
  - exact IH.
  - cbn [has_dash]. rewrite IH, orb_false_r.
    apply Ascii.eqb_neq. congruence.
Qed.

Lemma replace_dash_absent (s : string) :
  has_dash s = false -> PyStr.replace "-" "_" s = s.
Proof.
  unfold PyStr.replace. induction s as [|c s IH]; [reflexivity|].
  cbn [has_dash]. intros Hno. apply orb_false_iff in Hno as [Hc Hs].
  cbn [PyStr.replace_from PyStr.startswith].
  rewrite Ascii.eqb_sym, Hc. cbn [andb]. f_equal. now apply IH.
Qed.

Lemma has_dash_double_dash (s : string) :
  has_dash s = false -> has_double_dash s = false.
Proof.
  induction s as [|c s IH]; [reflexivity|].
  cbn [has_dash has_double_dash PyStr.startswith].
  intros Hno. apply orb_false_iff in Hno as [Hc Hs].
  rewrite Ascii.eqb_sym, Hc. cbn [andb orb]. now apply IH.
Qed.

Lemma normalize_key_no_dash (k : string) : has_dash (normalize_key k) = false.
Proof. apply replace_dash_removes_dashes. Qed.

(** X2. Normalising a key twice is normalising it once: a name that
    [read_config_toml] has produced is a fixed point of the renaming. *)
Theorem normalize_key_idempotent (k : string) :
  normalize_key (normalize_key k) = normalize_key k.
Proof.
  pose proof (normalize_key_no_dash k) as Hno.
  unfold normalize_key at 1.
  rewrite replace_double_dash_absent by now apply has_dash_double_dash.
  now apply replace_dash_absent.
Qed.

(** Every entry of the comprehension's result comes from the accumulator
    or is the value of an item, under that item's normalised key. *)
Lemma normalize_fold_provenance (items acc : dict) (name : string) (v : value) :
  Dict.get (fold_left
              (fun acc kv => Dict.set acc (normalize_key (fst kv)) (snd kv))
              items acc) name = Some v ->
  Dict.get acc name = Some v \/
  exists k, In (k, v) items /\ normalize_key k = name.
Proof.
  revert acc. induction items as [|[k0 v0] items IH]; simpl; intros acc Hget;
    [now left|].
  destruct (IH _ Hget) as [Hacc|(k & Hin & Hk)].
  - rewrite DictFacts.get_set in Hacc.
    destruct (String.eqb_spec (normalize_key k0) name) as [Heq|Hne].
    + injection Hacc as <-. right. exists k0. split; [now left | assumption].
    + now left.
  - right. exists k. split; [now right | assumption].
Qed.

(** X3. [read_config_toml] never invents an entry: everything it returns
    is the value of some key of the document's [tool.ward] table, filed
    under that key's normalised name; the rest of the document is
    ignored. *)
Theorem read_config_toml_entries_come_from_ward_table (w : World)
    (project_root : PurePath) (config_file : string) (document : dict)
    (file_config : dict) (name : string) (v : value) :
  toml_load w (to_str (joinpath project_root (parse config_file)))
    = Loaded document ->
  read_config_toml w project_root config_file = Return file_config ->
  Dict.get file_config name = Some v ->
  exists tool section k,
    Dict.get document "tool" = Some (VDict tool) /\
    Dict.get tool "ward" = Some (VDict section) /\
    In (k, v) section /\
    normalize_key k = name.
Proof.
  intros Hload Hread Hget. unfold read_config_toml in Hread.
  rewrite Hload in Hread.
  destruct (negb (is_file w _)); [injection Hread as <-; discriminate|].
  unfold Dict.get_default in Hread.
  destruct (Dict.get document "tool") as [[| | | | | |tool|]|] eqn:Htool;
    try discriminate; simpl in Hread; unfold Dict.get_default in Hread.
  - destruct (Dict.get tool "ward") as [[| | | | | |section|]|] eqn:Hward;
      try discriminate; simpl in Hread; injection Hread as <-.
    + destruct (normalize_fold_provenance _ _ _ _ Hget) as [Hnil|(k & Hin & Hk)];
        [discriminate|].
      exists tool, section, k. repeat split; assumption.
    + discriminate.
  - injection Hread as <-. discriminate.
Qed.

Lemma read_config_toml_entries_example :
  exists tool section k,
    Dict.get [("project", VDict [("name", VStr "demo")]);
              ("tool", VDict [("black", VDict [("line-length", VInt 88)]);
                              ("ward", VDict [("--fail-limit", VInt 5)])])]
             "tool" = Some (VDict tool) /\
    Dict.get tool "ward" = Some (VDict section) /\
    In (k, VInt 5) section /\
    normalize_key k = "fail_limit".
Proof.
  apply (read_config_toml_entries_come_from_ward_table
           (world_of "/repo" "/repo"
              (Some (Loaded [("project", VDict [("name", VStr "demo")]);
                          ("tool",
                           VDict [("black", VDict [("line-length", VInt 88)]);
                                  ("ward", VDict [("--fail-limit", VInt 5)])])])))
           (parse "/repo") _CONFIG_FILE _ [("fail_limit", VInt 5)]);
    reflexivity.
Defined.

(** X1. No key that [read_config_toml] returns holds a dash. *)
Theorem read_config_toml_keys_have_no_dash (w : World)
    (project_root : PurePath) (config_file : string) (file_config : dict)
    (name : string) :
  read_config_toml w project_root config_file = Return file_config ->
  In name (Dict.keys file_config) ->
  has_dash name = false.
Proof.
  intros Hread Hin.
  destruct (Dict.get file_config name) as [v|] eqn:Hget;
    [|now apply DictFacts.get_none_iff in Hget].
  unfold read_config_toml in Hread.
  destruct (negb (is_file w _)); [injection Hread as <-; discriminate|].
  destruct (toml_load w _) as [document|cause|e]; [|discriminate|discriminate].
  destruct (table_get _ _) as [ward_config|e]; [|discriminate].
  destruct (table_items ward_config) as [items|e]; [|discriminate].
  injection Hread as <-.
  destruct (normalize_fold_provenance _ _ _ _ Hget) as [Hnil|(k & _ & <-)];
    [discriminate | apply normalize_key_no_dash].
Qed.

Lemma read_config_toml_keys_example : has_dash "hook_module" = false.
Proof.
  apply (read_config_toml_keys_have_no_dash
           (world_of "/repo" "/repo"
              (Some (Loaded (ward_document
                            [("--hook-module", VList [VStr "hooks"])]))))
           (parse "/repo") _CONFIG_FILE
           [("hook_module", VList [VStr "hooks"])]);
    [reflexivity | simpl; tauto].
Defined.

(** X4. The errors of [read_config_toml]: it raises nothing when the
    file is absent; when [toml.load] fails with a [TomlDecodeError] or an
    [OSError] it raises [click.FileError] with the file name and the
    cause; an exception of another class that [toml.load] raises leaves
    the function as it is; and when the document loads, the only error
    left is the [AttributeError] of calling [get] or [items] on a [tool]
    or [tool.ward] entry that is not a table, which the [try] block does
    not cover. *)
Theorem read_config_toml_errors (w : World) (project_root : PurePath)
    (config_file : string) (e : exn) :
  read_config_toml w project_root config_file = Raise e ->
  is_file w (joinpath project_root (parse config_file)) = true /\
  ((exists cause,
      toml_load w (to_str (joinpath project_root (parse config_file)))
        = LoadError cause /\
      e = FileError config_file
            ("Error reading " ++ config_file ++ ":" ++ PyStr.nl ++ cause))
   \/
   toml_load w (to_str (joinpath project_root (parse config_file)))
     = LoadEscapes e
   \/
   (exists document,
      toml_load w (to_str (joinpath project_root (parse config_file)))
        = Loaded document /\
      e = AttributeError /\
      ((exists v, Dict.get document "tool" = Some v /\
                  forall tool, v <> VDict tool) \/
       (exists tool v, Dict.get document "tool" = Some (VDict tool) /\
                       Dict.get tool "ward" = Some v /\
                       forall section, v <> VDict section)))).
Proof.
  unfold read_config_toml. intros Hread.
  destruct (is_file w _); [|discriminate]. split; [reflexivity|].
  destruct (toml_load w _) as [document|cause|e'].
  - right. right. exists document. split; [reflexivity|].
    simpl in Hread. unfold Dict.get_default in Hread.
    destruct (Dict.get document "tool") as [[| | | | | |tool|]|] eqn:Htool;
      simpl in Hread; try (injection Hread as <-; split; [reflexivity|];
                           left; eexists; split; [reflexivity|]; discriminate).
    + unfold Dict.get_default in Hread.
      destruct (Dict.get tool "ward") as [[| | | | | |section|]|] eqn:Hward;
        simpl in Hread; try discriminate;
        injection Hread as <-; (split; [reflexivity|]);
        right; exists tool; eexists; (split; [reflexivity|]);
        (split; [eassumption|]); discriminate.
    + discriminate.
  - left. exists cause. split; [reflexivity|]. now injection Hread as <-.
  - right. left. now injection Hread as <-.
Qed.

Lemma read_config_toml_errors_example :
  is_file (world_of "/repo" "/repo"
             (Some (LoadEscapes (OtherError "UnicodeDecodeError"))))
          (joinpath (parse "/repo") (parse _CONFIG_FILE)) = true /\
  ((exists cause,
      toml_load (world_of "/repo" "/repo"
                   (Some (LoadEscapes (OtherError "UnicodeDecodeError"))))
                (to_str (joinpath (parse "/repo") (parse _CONFIG_FILE)))
        = LoadError cause /\
      OtherError "UnicodeDecodeError"
        = FileError _CONFIG_FILE
            ("Error reading " ++ _CONFIG_FILE ++ ":" ++ PyStr.nl ++ cause))
   \/
   toml_load (world_of "/repo" "/repo"
                (Some (LoadEscapes (OtherError "UnicodeDecodeError"))))
             (to_str (joinpath (parse "/repo") (parse _CONFIG_FILE)))
     = LoadEscapes (OtherError "UnicodeDecodeError")
   \/
   (exists document,
      toml_load (world_of "/repo" "/repo"
                   (Some (LoadEscapes (OtherError "UnicodeDecodeError"))))
                (to_str (joinpath (parse "/repo") (parse _CONFIG_FILE)))
        = Loaded document /\
      OtherError "UnicodeDecodeError" = AttributeError /\
      ((exists v, Dict.get document "tool" = Some v /\
                  forall tool, v <> VDict tool) \/
       (exists tool v, Dict.get document "tool" = Some (VDict tool) /\
                       Dict.get tool "ward" = Some v /\
                       forall section, v <> VDict section)))).
Proof.
  apply (read_config_toml_errors
           (world_of "/repo" "/repo"
              (Some (LoadEscapes (OtherError "UnicodeDecodeError"))))
           (parse "/repo") _CONFIG_FILE (OtherError "UnicodeDecodeError")).
  reflexivity.
Defined.

(** ** More on [apply_multi_defaults] *)

Lemma as_list_nonempty (v : value) :
  truthy v = true -> exists l, as_list v = VList l /\ l <> [].
Proof.
  destruct v; simpl; intros Hv; try (eexists; split; [reflexivity|discriminate]).
  exists l. split; [reflexivity|]. intros ->. discriminate.
Qed.

Lemma file_only_nonempty_list (file_config cli_config : dict)
    (k : string) (dflt v : value) :
  file_only file_config cli_config k dflt = Some v ->
  exists l, v = VList l /\ l <> [].
Proof.
  unfold file_only.
  destruct (truthy (Dict.get_default file_config k dflt)) eqn:Hv;
    [|discriminate].
  destruct (negb _); [|discriminate]. simpl. intros [= <-].
  now apply as_list_nonempty.
Qed.

(** X5. The result of [apply_multi_defaults] never holds a key other
    than [path], [exclude] and [hook_module], and every value in it is a
    non-empty list. *)
Theorem apply_multi_defaults_only_nonempty_lists
    (file_config cli_config : dict) (k : string) (v : value) :
  Dict.get (apply_multi_defaults file_config cli_config) k = Some v ->
  In k ["path"; "exclude"; "hook_module"] /\
  exists l, v = VList l /\ l <> [].
Proof.
  rewrite apply_multi_defaults_get.
  destruct (String.eqb_spec k "path") as [->|_];
    [|destruct (String.eqb_spec k "exclude") as [->|_];
      [|destruct (String.eqb_spec k "hook_module") as [->|_];
        [|discriminate]]];
    intros Hget; (split; [simpl; tauto|]);
    eapply file_only_nonempty_list; eassumption.
Qed.

Lemma apply_multi_defaults_only_nonempty_lists_example :
  In "hook_module" ["path"; "exclude"; "hook_module"] /\
  exists l, VList [VStr "conftest"] = VList l /\ l <> [].
Proof.
  apply (apply_multi_defaults_only_nonempty_lists
           [("hook_module", VStr "conftest"); ("order", VStr "random")]
           [("order", VStr "standard")]
           "hook_module" (VList [VStr "conftest"])).
  reflexivity.
Defined.

(** X6. [apply_multi_defaults] looks at the command-line configuration
    only through the truth values of its [path], [exclude] and
    [hook_module] entries: two configurations that agree on those give
    the same result, so an empty value is not told from an absent one. *)
Theorem apply_multi_defaults_sees_only_truthiness
    (file_config cli_config cli_config' : dict) :
  (forall k, In k ["path"; "exclude"; "hook_module"] ->
             truthy (Dict.get_default cli_config k VNone)
             = truthy (Dict.get_default cli_config' k VNone)) ->
  apply_multi_defaults file_config cli_config
  = apply_multi_defaults file_config cli_config'.
Proof.
  intros Hsame. unfold apply_multi_defaults, multiple_options.
  simpl fold_left.
  rewrite (Hsame "path"), (Hsame "exclude"), (Hsame "hook_module")
    by (simpl; tauto).
  reflexivity.
Qed.

Lemma apply_multi_defaults_sees_only_truthiness_example :
  apply_multi_defaults [("exclude", VStr "build")] []
  = apply_multi_defaults [("exclude", VStr "build")]
      [("exclude", VTuple []); ("path", VStr ""); ("fail_limit", VInt 3)].
Proof.
  apply (apply_multi_defaults_sees_only_truthiness
           [("exclude", VStr "build")] []
           [("exclude", VTuple []); ("path", VStr ""); ("fail_limit", VInt 3)]).
  intros k [<-|[<-|[<-|[]]]]; reflexivity.
Defined.

(** ** The defaulting step *)

Lemma set_same (d : dict) (k : string) (v : value) :
  Dict.get d k = Some v -> Dict.set d k v = d.
Proof.
  induction d as [|[k0 v0] d IH]; simpl; [discriminate|].
  destruct (String.eqb_spec k0 k) as [->|Hne].
  - now intros [= ->].
  - intros Hget. now rewrite IH.
Qed.

Lemma update_same (d other : dict) :
  (forall k v, In (k, v) other -> Dict.get d k = Some v) ->
  Dict.update d other = d.
Proof.
  unfold Dict.update. induction other as [|[k v] other IH]; simpl;
    intros Hall; [reflexivity|].
  rewrite set_same by (apply Hall; now left).
  apply IH. intros k' v' Hin. apply Hall. now right.
Qed.

Lemma get_update_wf (d other : dict) (k : string) :
  Dict.wf other ->
  Dict.get (Dict.update d other) k =
  match Dict.get other k with
  | Some v => Some v
  | None => Dict.get d k
  end.
Proof. intros Hwf. now rewrite DictFacts.get_update, DictFacts.get_rev. Qed.

(** Updating twice with the same well-formed dict is updating once. *)
Lemma update_twice (d other : dict) :
  Dict.wf other ->
  Dict.update (Dict.update d other) other = Dict.update d other.
Proof.
  intros Hwf. apply update_same. intros k v Hin.
  rewrite get_update_wf by assumption.
  now rewrite (DictFacts.in_get other k v Hwf Hin).
Qed.

Lemma defaulted_get (file_config cli_config : dict) (k : string) :
  Dict.get (defaulted file_config cli_config) k =
  match Dict.get (apply_multi_defaults file_config cli_config) k with
  | Some v => Some v
  | None => Dict.get file_config k
  end.
Proof. apply get_update_wf, apply_multi_defaults_wf. Qed.

Lemma file_only_defaulted (file_config cli_config : dict)
    (k : string) (dflt : value) :
  Dict.get (apply_multi_defaults file_config cli_config) k
    = file_only file_config cli_config k dflt ->
  file_only (defaulted file_config cli_config) cli_config k dflt
  = file_only file_config cli_config k dflt.
Proof.
  intros Hget. unfold file_only at 1.
  assert (Hd : Dict.get_default (defaulted file_config cli_config) k dflt =
               match file_only file_config cli_config k dflt with
               | Some x => x
               | None => Dict.get_default file_config k dflt
               end).
  { unfold Dict.get_default. rewrite defaulted_get, Hget.
    now destruct (file_only file_config cli_config k dflt). }
  rewrite Hd. unfold file_only.
  destruct (truthy (Dict.get_default file_config k dflt)) eqn:Hv;
    destruct (truthy (Dict.get_default cli_config k VNone)); simpl;
    rewrite ?Hv; simpl; try reflexivity.
  now rewrite as_list_truthy, as_list_idempotent.
Qed.

Lemma apply_multi_defaults_from_file_only
    (file_config file_config' cli_config : dict) :
  file_only file_config' cli_config "path" (VStr ".")
    = file_only file_config cli_config "path" (VStr ".") ->
  file_only file_config' cli_config "exclude" (VStr "")
    = file_only file_config cli_config "exclude" (VStr "") ->
  file_only file_config' cli_config "hook_module" (VStr "")
    = file_only file_config cli_config "hook_module" (VStr "") ->
  apply_multi_defaults file_config' cli_config
  = apply_multi_defaults file_config cli_config.
Proof.
  unfold file_only, apply_multi_defaults, multiple_options. simpl fold_left.
  intros Hpath Hexclude Hhook.
  repeat match goal with
         | H : (if ?b then _ else _) = (if ?b' then _ else _) |- _ =>
             destruct b, b'; try discriminate H;
             try (injection H as H; rewrite H); clear H
         end;
    reflexivity.
Qed.

(** X7. The defaulting step is idempotent: merging the multi-valued
    defaults into a file configuration that already went through the
    step changes nothing. *)
Theorem defaulted_idempotent (file_config cli_config : dict) :
  defaulted (defaulted file_config cli_config) cli_config
  = defaulted file_config cli_config.
Proof.
  unfold defaulted at 1.
  rewrite (apply_multi_defaults_from_file_only
             file_config (defaulted file_config cli_config) cli_config);
    try (apply file_only_defaulted; now rewrite apply_multi_defaults_get).
  apply update_twice, apply_multi_defaults_wf.
Qed.

(** ** The four ways a call ends *)

Lemma set_defaults_from_config_root_error (w : World) (c : Context) (e : exn) :
  project_root_of w c = Raise e ->
  set_defaults_from_config w c = (Raise e, c).
Proof.
  unfold project_root_of. intros Hroot.
  unfold set_defaults_from_config, bind, lift, params_get.
  destruct (search_roots _) as [roots|e']; [discriminate|].
  now injection Hroot as <-.
Qed.

(** A call fails while looking for the project root, fails while reading
    the file, fails while relocating, or returns. *)
Lemma set_defaults_from_config_cases (w : World) (c : Context) :
  (exists e,
     project_root_of w c = Raise e /\
     set_defaults_from_config w c = (Raise e, c))
  \/
  (exists project_root e,
     project_root_of w c = Return project_root /\
     read_config_toml w project_root _CONFIG_FILE = Raise e /\
     set_defaults_from_config w c = (Raise e, c))
  \/
  (exists project_root file_config e,
     project_root_of w c = Return project_root /\
     read_config_toml w project_root _CONFIG_FILE = Return file_config /\
     relocate_items project_root (cwd w)
       (defaulted file_config (params c)) (defaulted file_config (params c))
       = Raise e /\
     set_defaults_from_config w c
       = (Raise e, recorded c (config_path_of project_root file_config)))
  \/
  (exists project_root file_config relocated_config,
     project_root_of w c = Return project_root /\
     read_config_toml w project_root _CONFIG_FILE = Return file_config /\
     relocate_items project_root (cwd w)
       (defaulted file_config (params c)) (defaulted file_config (params c))
       = Return relocated_config /\
     set_defaults_from_config w c
       = (Return (config_path_of project_root file_config),
          mkContext (Dict.set (params c) "config_path"
                              (config_path_of project_root file_config))
                    (Some (Dict.update (default_map_or_empty c)
                                       relocated_config)))).
Proof.
  destruct (project_root_of w c) as [project_root|e] eqn:Hroot.
  - destruct (read_config_toml w project_root _CONFIG_FILE)
      as [file_config|e] eqn:Hread.
    + pose proof (set_defaults_from_config_stages w c _ _ Hroot Hread) as Hrun.
      cbv zeta in Hrun.
      destruct (relocate_items project_root (cwd w)
                  (defaulted file_config (params c))
                  (defaulted file_config (params c)))
        as [relocated_config|e] eqn:Hloop.
      * right. right. right.
        exists project_root, file_config, relocated_config.
        repeat split; assumption.
      * right. right. left. exists project_root, file_config, e.
        repeat split; assumption.
    + right. left. exists project_root, e.
      repeat split; try assumption.
      now apply set_defaults_from_config_read_error with project_root.
  - left. exists e. split; [reflexivity|].
    now apply set_defaults_from_config_root_error.
Qed.

(** X8. Whatever the outcome, the call changes no entry of
    [context.params] other than ["config_path"]: the values given on the
    command line stay as they were. *)
Theorem params_changed_only_at_config_path (w : World) (c : Context)
    (k : string) :
  k <> "config_path" ->
  Dict.get (params (snd (set_defaults_from_config w c))) k
  = Dict.get (params c) k.
Proof.
  intros Hk.
  destruct (set_defaults_from_config_cases w c)
    as [(e & _ & ->)|[(r & e & _ & _ & ->)|[(r & fc & e & _ & _ & _ & ->)
       |(r & fc & fc' & _ & _ & _ & ->)]]];
    simpl; try reflexivity;
    apply DictFacts.get_set_other; congruence.
Qed.

Lemma params_changed_only_at_config_path_example :
  Dict.get
    (params (snd (set_defaults_from_config
                    (world_of "/repo" "/repo"
                       (Some (Loaded (ward_document [("fail-limit", VInt 5)]))))
                    (mkContext [("fail_limit", VInt 1)] None))))
    "fail_limit"
  = Dict.get (params (mkContext [("fail_limit", VInt 1)] None)) "fail_limit".
Proof.
  apply (params_changed_only_at_config_path
           (world_of "/repo" "/repo"
              (Some (Loaded (ward_document [("fail-limit", VInt 5)]))))
           (mkContext [("fail_limit", VInt 1)] None) "fail_limit").
  discriminate.
Defined.

(** X9. A call that raises has merged nothing into the default map: its
    entries are those it had before the call (a missing map may have
    become the empty one). *)
Theorem raise_leaves_default_map_entries (w : World) (c : Context) (e : exn) :
  fst (set_defaults_from_config w c) = Raise e ->
  default_map_or_empty (snd (set_defaults_from_config w c))
  = default_map_or_empty c.
Proof.
  destruct (set_defaults_from_config_cases w c)
    as [(e' & _ & ->)|[(r & e' & _ & _ & ->)|[(r & fc & e' & _ & _ & _ & ->)
       |(r & fc & fc' & _ & _ & _ & ->)]]];
    simpl; intros Hraise; try reflexivity; discriminate.
Qed.

Lemma raise_leaves_default_map_entries_example :
  default_map_or_empty
    (snd (set_defaults_from_config
            (world_of "/repo" "/repo"
               (Some (Loaded (ward_document
                             [("order", VStr "random");
                              ("exclude", VList [VStr "/tmp"])]))))
            (mkContext [] (Some [("order", VStr "standard")]))))
  = default_map_or_empty (mkContext [] (Some [("order", VStr "standard")])).
Proof.
  apply (raise_leaves_default_map_entries
           (world_of "/repo" "/repo"
              (Some (Loaded (ward_document
                            [("order", VStr "random");
                             ("exclude", VList [VStr "/tmp"])]))))
           (mkContext [] (Some [("order", VStr "standard")]))
           (ValueError "/tmp" "/repo")).
  reflexivity.
Defined.

(** X10. A call that returns hands back exactly what it recorded under
    ["config_path"]: [None] when the file configuration is empty, and the
    path of [pyproject.toml] under the project root otherwise. *)
Theorem returned_config_path_is_recorded (w : World) (c c' : Context)
    (r : value) :
  set_defaults_from_config w c = (Return r, c') ->
  Dict.get (params c') "config_path" = Some r /\
  exists project_root file_config,
    project_root_of w c = Return project_root /\
    read_config_toml w project_root _CONFIG_FILE = Return file_config /\
    (file_config = [] /\ r = VNone \/
     file_config <> [] /\
     r = VPath (joinpath project_root (parse "pyproject.toml"))).
Proof.
  destruct (set_defaults_from_config_cases w c)
    as [(e' & _ & ->)|[(root & e' & _ & _ & ->)|[(root & fc & e' & _ & _ & _ & ->)
       |(root & fc & fc' & Hroot & Hread & _ & ->)]]];
    try discriminate.
  intros [= <- <-]. simpl. split; [apply DictFacts.get_set_same|].
  exists root, fc. repeat split; try assumption.
  unfold config_path_of. destruct fc; [left | right]; simpl; split;
    try reflexivity; discriminate.
Qed.

Lemma returned_config_path_example :
  Dict.get
    (params (snd (set_defaults_from_config
                    (world_of "/repo" "/repo"
                       (Some (Loaded (ward_document [("order", VStr "random")]))))
                    empty_context)))
    "config_path"
  = Some (VPath (parse "/repo/pyproject.toml")) /\
  exists project_root file_config,
    project_root_of
      (world_of "/repo" "/repo"
         (Some (Loaded (ward_document [("order", VStr "random")]))))
      empty_context = Return project_root /\
    read_config_toml
      (world_of "/repo" "/repo"
         (Some (Loaded (ward_document [("order", VStr "random")]))))
      project_root _CONFIG_FILE = Return file_config /\
    (file_config = [] /\ VPath (parse "/repo/pyproject.toml") = VNone \/
     file_config <> [] /\
     VPath (parse "/repo/pyproject.toml")
     = VPath (joinpath project_root (parse "pyproject.toml"))).
Proof.
  apply (returned_config_path_is_recorded
           (world_of "/repo" "/repo"
              (Some (Loaded (ward_document [("order", VStr "random")]))))
           empty_context).
  reflexivity.
Defined.

(** ** The default map after a call that returns, key by key *)

(** X11. After a call that returns, a key that the file configuration
    (with the multi-valued defaults merged in) does not hold keeps its
    entry in the default map, and a key it holds that is not a path
    option ([hook_module] and every single-valued option) is overwritten
    with the file's value, untouched by the relocation. *)
Theorem default_map_merge_outside_path_options (w : World) (c c' : Context)
    (r : value) (project_root : PurePath) (file_config : dict) :
  set_defaults_from_config w c = (Return r, c') ->
  project_root_of w c = Return project_root ->
  read_config_toml w project_root _CONFIG_FILE = Return file_config ->
  exists m,
    default_map c' = Some m /\
    (forall k, Dict.get (defaulted file_config (params c)) k = None ->
               Dict.get m k = Dict.get (default_map_or_empty c) k) /\
    (forall k v, is_path_config_key k = false ->
                 Dict.get (defaulted file_config (params c)) k = Some v ->
                 Dict.get m k = Some v).
Proof.
  intros Hrun Hroot Hread.
  rewrite (set_defaults_from_config_stages w c _ _ Hroot Hread) in Hrun.
  cbv zeta in Hrun.
  pose proof (defaulted_wf file_config (params c)
                (read_config_toml_wf _ _ _ _ Hread)) as Hwf.
  destruct (relocate_items _ _ _ _) as [relocated_config|e] eqn:Hloop;
    [|discriminate].
  injection Hrun as _ <-.
  pose proof (relocate_items_wf _ _ _ _ _ Hloop Hwf) as Hwf'.
  eexists. split; [reflexivity|]. split.
  - intros k Hnone. rewrite get_update_wf by assumption.
    rewrite (relocate_items_untouched _ _ _ _ _ k Hloop), Hnone;
      [reflexivity|].
    left. now apply DictFacts.get_none_iff.
  - intros k v Hk Hget. rewrite get_update_wf by assumption.
    rewrite (relocate_items_untouched _ _ _ _ _ k Hloop), Hget;
      [reflexivity | now right].
Qed.

Lemma default_map_merge_example :
  exists m,
    default_map
      (snd (set_defaults_from_config
              (world_of "/repo" "/repo"
                 (Some (Loaded (ward_document
                               [("order", VStr "random");
                                ("hook-module", VStr "conftest")]))))
              (mkContext [("order", VStr "standard")]
                         (Some [("order", VStr "standard");
                                ("capture_output", VBool true)]))))
    = Some m /\
    (forall k,
        Dict.get (defaulted [("order", VStr "random");
                             ("hook_module", VStr "conftest")]
                            [("order", VStr "standard")]) k = None ->
        Dict.get m k
        = Dict.get [("order", VStr "standard");
                    ("capture_output", VBool true)] k) /\
    (forall k v,
        is_path_config_key k = false ->
        Dict.get (defaulted [("order", VStr "random");
                             ("hook_module", VStr "conftest")]
                            [("order", VStr "standard")]) k = Some v ->
        Dict.get m k = Some v).
Proof.
  eapply (default_map_merge_outside_path_options
            (world_of "/repo" "/repo"
               (Some (Loaded (ward_document
                             [("order", VStr "random");
                              ("hook-module", VStr "conftest")]))))
            (mkContext [("order", VStr "standard")]
                       (Some [("order", VStr "standard");
                              ("capture_output", VBool true)]))
            _ _ (parse "/repo")
            [("order", VStr "random"); ("hook_module", VStr "conftest")]);
    [vm_compute; reflexivity | reflexivity | reflexivity].
Defined.

(** X13. When the file gives a path option ([path] or [exclude]) as a
    non-empty plain string and the command line has nothing truthy for
    the key, a call that returns has stored under that key the
    one-element tuple of the relocated string: the string is wrapped in a
    list first and is not iterated character by character. *)
Theorem scalar_string_without_cli_value_is_one_path (w : World)
    (c c' : Context) (r : value) (project_root : PurePath)
    (file_config : dict) (k s : string) :
  set_defaults_from_config w c = (Return r, c') ->
  project_root_of w c = Return project_root ->
  read_config_toml w project_root _CONFIG_FILE = Return file_config ->
  In k path_config_keys ->
  Dict.get file_config k = Some (VStr s) ->
  s <> "" ->
  truthy (Dict.get_default (params c) k VNone) = false ->
  exists rel m,
    relocated project_root (cwd w) (VStr s) = Some rel /\
    default_map c' = Some m /\
    Dict.get m k = Some (VTuple [VStr rel]).
Proof.
  intros Hrun Hroot Hread Hk Hfile Hs Hcli.
  assert (Hget : Dict.get (defaulted file_config (params c)) k
                 = Some (VList [VStr s])).
  { rewrite defaulted_get, apply_multi_defaults_get. unfold file_only.
    assert (Htruthy : truthy (VStr s) = true)
      by (simpl; apply negb_true_iff, String.eqb_neq; assumption).
    assert (Hfc : forall dflt, Dict.get_default file_config k dflt = VStr s)
      by (intros dflt; unfold Dict.get_default; now rewrite Hfile).
    simpl in Hk.
    destruct Hk as [<-|[<-|[]]]; simpl String.eqb; cbv zeta;
      rewrite !Hfc, Htruthy, Hcli; reflexivity. }
  destruct (set_defaults_from_config_path_option
              w c c' r project_root file_config k _
              Hrun Hroot Hread (is_path_config_key_in k Hk) Hget)
    as (elems & strs & m & Hiter & Hstrs & Hmap & Hstored).
  injection Hiter as <-.
  inversion Hstrs as [|? rel ? strs' Hrel Hrest]; subst.
  inversion Hrest; subst.
  exists rel, m. repeat split; assumption.
Qed.

Lemma scalar_string_without_cli_value_example :
  exists rel m,
    relocated (parse "/repo") (parse "/repo") (VStr "build") = Some rel /\
    default_map
      (snd (set_defaults_from_config
              (world_of "/repo" "/repo"
                 (Some (Loaded (ward_document [("exclude", VStr "build")]))))
              (mkContext [("exclude", VTuple [])] None)))
    = Some m /\
    Dict.get m "exclude" = Some (VTuple [VStr rel]).
Proof.
  eapply (scalar_string_without_cli_value_is_one_path
            (world_of "/repo" "/repo"
               (Some (Loaded (ward_document [("exclude", VStr "build")]))))
            (mkContext [("exclude", VTuple [])] None)
            _ _ (parse "/repo") _ "exclude" "build");
    [ vm_compute; reflexivity | reflexivity | reflexivity
    | simpl; tauto | reflexivity | discriminate | reflexivity ].
Defined.

(** ** Calling twice *)

(** X15. A call that returns leaves a context on which the same call,
    in the same environment, returns the same value and changes
    nothing. *)
Theorem second_call_changes_nothing (w : World) (c c' : Context) (r : value) :
  set_defaults_from_config w c = (Return r, c') ->
  set_defaults_from_config w c' = (Return r, c').
Proof.
  destruct (set_defaults_from_config_cases w c)
    as [(e' & _ & ->)|[(root & e' & _ & _ & ->)|[(root & fc & e' & _ & _ & _ & ->)
       |(root & fc & fc' & Hroot & Hread & Hloop & ->)]]];
    try discriminate.
  intros [= <- <-].
  set (cp := config_path_of root fc) in *.
  set (c1 := mkContext (Dict.set (params c) "config_path" cp)
                       (Some (Dict.update (default_map_or_empty c) fc'))).
  assert (Hroot1 : project_root_of w c1 = Return root).
  { unfold project_root_of in *. subst c1. cbn [params].
    unfold Dict.get_default in *.
    now rewrite DictFacts.get_set_other by discriminate. }
  rewrite (set_defaults_from_config_stages w c1 root fc Hroot1 Hread).
  cbv zeta. subst c1. cbn [params]. unfold defaulted in *.
  rewrite apply_multi_defaults_config_path, Hloop.
  fold cp. f_equal. f_equal.
  - apply set_same, DictFacts.get_set_same.
  - f_equal. unfold default_map_or_empty at 1. cbn [default_map].
    apply update_twice.
    apply (relocate_items_wf _ _ _ _ _ Hloop).
    apply DictFacts.update_wf. now apply (read_config_toml_wf _ _ _ _ Hread).
Qed.

Lemma second_call_example :
  set_defaults_from_config
    (world_of "/repo" "/repo"
       (Some (Loaded (ward_document
                     [("path", VList [VStr "tests"]);
                      ("order", VStr "random")]))))
    (mkContext [("config_path", VPath (parse "/repo/pyproject.toml"))]
               (Some [("path", VTuple [VStr "tests"]);
                      ("order", VStr "random")]))
  = (Return (VPath (parse "/repo/pyproject.toml")),
     mkContext [("config_path", VPath (parse "/repo/pyproject.toml"))]
               (Some [("path", VTuple [VStr "tests"]);
                      ("order", VStr "random")])).
Proof.
  apply (second_call_changes_nothing
           (world_of "/repo" "/repo"
              (Some (Loaded (ward_document
                            [("path", VList [VStr "tests"]);
                             ("order", VStr "random")]))))
           empty_context).
  reflexivity.
Defined.

(** ** Relocation from a working directory at or above the project root *)

Lemma strip_prefix_app (l r : list string) : strip_prefix l (l ++ r) = Some r.
Proof.
  induction l as [|x l IH]; simpl; [reflexivity|].
  now rewrite String.eqb_refl.
Qed.

(** X12. When the project root is the working directory or lies below
    it, every relative entry of the file can be relocated: the result is
    the way from the working directory down to the project root followed
    by the entry, with empty and ["."] components dropped. *)
Theorem relative_entry_relocated_from_above (project_root here : PurePath)
    (below : list string) (s : string) :
  root project_root = root here ->
  parts project_root = parts here ++ below ->
  root (parse s) = "" ->
  relocated project_root here (VStr s)
  = Some (to_str (mkPath "" (below ++ parts (parse s)))).
Proof.
  intros Hroot Hparts Hs. unfold relocated, as_path, joinpath, relative_to.
  rewrite Hs. cbn [String.eqb root Pathlib.parts].
  rewrite Hroot, String.eqb_refl, Hparts, <- app_assoc, strip_prefix_app.
  reflexivity.
Qed.

Lemma relative_entry_relocated_from_above_example :
  relocated (parse "/repo/pkg") (parse "/repo") (VStr "./tests//unit")
  = Some "pkg/tests/unit".
Proof.
  apply (relative_entry_relocated_from_above
           (parse "/repo/pkg") (parse "/repo") ["pkg"] "./tests//unit");
    reflexivity.
Defined.

(** ** [_make_all_relative_to] *)

(** X14. Despite its name, [_make_all_relative_to] joins: each result is
    the element followed by [relative_to_path], so when
    [relative_to_path] is anchored every result is [relative_to_path]
    itself and the elements are dropped; nothing is made relative and no
    [ValueError] can arise. *)
Theorem make_all_relative_to_anchored (str_paths : list value)
    (relative_to_path : PurePath) :
  root relative_to_path <> "" ->
  Forall (fun v => as_path v <> None) str_paths ->
  _make_all_relative_to str_paths relative_to_path
  = Return (repeat relative_to_path (List.length str_paths)).
Proof.
  intros Hanchored Hall. induction Hall as [|v vs Hv _ IH]; simpl;
    [reflexivity|].
  destruct (as_path v) as [p|]; [|congruence].
  rewrite IH. unfold joinpath.
  destruct (String.eqb_spec (root relative_to_path) ""); [contradiction|].
  reflexivity.
Qed.

Lemma make_all_relative_to_anchored_example :
  _make_all_relative_to [VStr "tests"; VStr "docs/examples"] (parse "/repo")
  = Return [parse "/repo"; parse "/repo"].
Proof.
  apply (make_all_relative_to_anchored
           [VStr "tests"; VStr "docs/examples"] (parse "/repo")).
  - discriminate.
  - repeat constructor; discriminate.
Defined.
